(** * Weather MCP server: the JSON-RPC request router and its weather client

    A shallow embedding of [MCPService] (the HTTP-facing request router),
    of the stdio tool handler of [WeatherMCPServer], and of the
    [WeatherService] both of them call, followed by the properties of the
    router that the specification states.

    Conventions of the embedding.
    - Values of TypeScript type [any] are JSON values ([JValue]), extended
      with [JUndefined] for an absent property.
    - A JavaScript string is the [string] of its UTF-8 bytes.  [trim]
      strips exactly the white space and line terminators of ECMAScript,
      [split] and [join] are exact; [toUpperCase] and [toLowerCase] map the
      ASCII letters only, so a statement that depends on the case of a city
      name is about an ASCII name or leaves the name open.
    - A JavaScript number is an exact decimal ([JSNumber]).  Whether it is
      zero is decided as for the double it is parsed to; it prints in plain
      decimal notation, which is what the engine prints for the figures of
      the mock record.  Statements about other records leave the text as
      [formatWeatherForDisplay] of the record, and none says how another
      number prints or rounds.
    - A synchronous computation either returns or throws ([Exc]); a call of
      an [async] function never throws, it yields a [Promise] that is
      fulfilled or rejected.  The calls of [getWeatherByCity] are recorded,
      in the order they are started, in the [World].
    - What the methods write to the logger is left out; building a log
      line is kept where it can throw. *)

From Stdlib Require Import String Ascii List ZArith Lia Bool DecimalString.
Import ListNotations.
Local Open Scope string_scope.
Local Open Scope Z_scope.

(** ** JavaScript strings *)

Module JsString.

(** The white space and line terminators of ECMAScript, by their UTF-8
    bytes: U+0009 to U+000D and U+0020 in one byte, U+00A0 in two, and
    U+1680, U+2000 to U+200A, U+2028, U+2029, U+202F, U+205F, U+3000 and
    U+FEFF in three. *)
Definition is_whitespace1 (a : nat) : bool :=
  (Nat.eqb a 32 || (Nat.leb 9 a && Nat.leb a 13))%bool.

Definition is_whitespace2 (a b : nat) : bool :=
  (Nat.eqb a 194 && Nat.eqb b 160)%bool.

Definition is_whitespace3 (a b c : nat) : bool :=
  ((Nat.eqb a 225 && Nat.eqb b 154 && Nat.eqb c 128)
   || (Nat.eqb a 226 && Nat.eqb b 128
       && ((Nat.leb 128 c && Nat.leb c 138)
           || Nat.eqb c 168 || Nat.eqb c 169 || Nat.eqb c 175))
   || (Nat.eqb a 226 && Nat.eqb b 129 && Nat.eqb c 159)
   || (Nat.eqb a 227 && Nat.eqb b 128 && Nat.eqb c 128)
   || (Nat.eqb a 239 && Nat.eqb b 187 && Nat.eqb c 191))%bool.

Fixpoint trimStart (s : string) : string :=
  match s with
  | EmptyString => EmptyString
  | String c1 r1 =>
      if is_whitespace1 (nat_of_ascii c1) then trimStart r1
      else
        match r1 with
        | EmptyString => s
        | String c2 r2 =>
            if is_whitespace2 (nat_of_ascii c1) (nat_of_ascii c2) then trimStart r2
            else
              match r2 with
              | EmptyString => s
              | String c3 r3 =>
                  if is_whitespace3 (nat_of_ascii c1) (nat_of_ascii c2) (nat_of_ascii c3)
                  then trimStart r3
                  else s
              end
        end
  end.

(** Nothing but white space, or nothing at all. *)
Definition is_blank (s : string) : bool :=
  match trimStart s with
  | EmptyString => true
  | _ => false
  end.

Fixpoint trimEnd (s : string) : string :=
  match s with
  | EmptyString => EmptyString
  | String c r => if is_blank s then EmptyString else String c (trimEnd r)
  end.

Definition trim (s : string) : string := trimEnd (trimStart s).

Definition upper_char (c : ascii) : ascii :=
  let n := nat_of_ascii c in
  if (Nat.leb 97 n && Nat.leb n 122)%bool then ascii_of_nat (n - 32) else c.

Definition lower_char (c : ascii) : ascii :=
  let n := nat_of_ascii c in
  if (Nat.leb 65 n && Nat.leb n 90)%bool then ascii_of_nat (n + 32) else c.

Fixpoint map_chars (f : ascii -> ascii) (s : string) : string :=
  match s with
  | EmptyString => EmptyString
  | String c r => String (f c) (map_chars f r)
  end.

Definition toUpperCase : string -> string := map_chars upper_char.
Definition toLowerCase : string -> string := map_chars lower_char.

(** [s.charAt(0)]: the first character, or the empty string. *)
Definition charAt0 (s : string) : string :=
  match s with
  | EmptyString => EmptyString
  | String c _ => String c EmptyString
  end.

(** [s.slice(1)]: everything after the first character. *)
Definition slice1 (s : string) : string :=
  match s with
  | EmptyString => EmptyString
  | String _ r => r
  end.

(** [s.split(sep)] for a one-character separator: never the empty list. *)
Fixpoint split (sep : ascii) (s : string) : list string :=
  match s with
  | EmptyString => [EmptyString]
  | String c r =>
      if Ascii.eqb c sep then EmptyString :: split sep r
      else match split sep r with
           | h :: t => String c h :: t
           | [] => [String c EmptyString]
           end
  end.

(** [parts.join(sep)]. *)
Fixpoint join (sep : string) (parts : list string) : string :=
  match parts with
  | [] => EmptyString
  | [p] => p
  | p :: rest => p ++ sep ++ join sep rest
  end.


End JsString.

(** ** JavaScript numbers, as exact decimals *)

Record JSNumber : Type := mkNumber { mantissa : Z; scale : nat }.

Module JsNumber.

Definition of_Z (z : Z) : JSNumber := mkNumber z 0.

Definition pow10 (n : nat) : Z := 10 ^ Z.of_nat n.

(** The double nearest to [x] is zero: [|x|] is at most [2^-1075], half
    the least positive double. *)
Definition is_zero (x : JSNumber) : bool :=
  Z.shiftl (Z.abs (mantissa x)) 1075 <=? pow10 (scale x).

(** [Math.round]: the nearest integer, halves towards plus infinity. *)
Definition round (x : JSNumber) : JSNumber :=
  of_Z ((2 * mantissa x + pow10 (scale x)) / (2 * pow10 (scale x))).

(** [x / 1000]. *)
Definition div1000 (x : JSNumber) : JSNumber :=
  mkNumber (mantissa x) (scale x + 3).

Fixpoint zeros (n : nat) : string :=
  match n with
  | O => EmptyString
  | S k => String "0" (zeros k)
  end.

Fixpoint strip_zeros (s : string) : string :=
  match s with
  | EmptyString => EmptyString
  | String c r =>
      match strip_zeros r with
      | EmptyString => if Ascii.eqb c "0" then EmptyString else String c EmptyString
      | r' => String c r'
      end
  end.

Definition digits (z : Z) : string := NilZero.string_of_uint (N.to_uint (Z.to_N z)).

(** The fractional digits of [|m| / 10^k], without trailing zeros. *)
Definition fraction (m : Z) (k : nat) : string :=
  let f := digits (Z.abs m mod pow10 k) in
  strip_zeros (zeros (k - String.length f) ++ f).

(** [String(x)], in plain decimal notation. *)
Definition toString (x : JSNumber) : string :=
  let m := mantissa x in
  let sign := if m <? 0 then "-" else EmptyString in
  let whole := digits (Z.abs m / pow10 (scale x)) in
  match fraction m (scale x) with
  | EmptyString => sign ++ whole
  | f => sign ++ whole ++ "." ++ f
  end.

End JsNumber.

(** ** JavaScript values, errors, promises *)

(** A parsed JSON value, or [undefined].  An object lists its own
    properties, each name once. *)

#[warnings="-register-all"] Inductive JValue : Type :=
| JUndefined
| JNull
| JBool (b : bool)
| JNum (n : JSNumber)
| JStr (s : string)
| JArr (items : list JValue)
| JObj (fields : list (string * JValue)).

(** The errors the program throws.  The messages of [TypeError] are the
    engine's (V8); [AxiosError] carries [error.response?.status]. *)
Inductive JSError : Type :=
| TypeError (msg : string)
| BadRequestException (msg : string)
| Error (msg : string)
| AxiosError (status : option Z) (msg : string).

Definition error_message (e : JSError) : string :=
  match e with
  | TypeError m | BadRequestException m | Error m | AxiosError _ m => m
  end.

(** [error.response?.status] *)
Definition response_status (e : JSError) : option Z :=
  match e with
  | AxiosError st _ => st
  | _ => None
  end.

Inductive Exc (A : Type) : Type :=
| Return (a : A)
| Throw (e : JSError).
Arguments Return {A} a.
Arguments Throw {A} e.

Inductive Promise (A : Type) : Type :=
| Fulfilled (a : A)
| Rejected (e : JSError).
Arguments Fulfilled {A} a.
Arguments Rejected {A} e.

(** What a [return] statement of an [async] function hands over: a plain
    value, or a promise whose fate the function's own promise then adopts. *)
Inductive Returned (A : Type) : Type :=
| Value (a : A)
| Thenable (p : Promise A).
Arguments Value {A} a.
Arguments Thenable {A} p.

(** One entry per call of [getWeatherByCity], with the values of its two
    parameters. *)
Inductive Event : Type :=
| FetchWeather (city units : JValue).

Definition World : Type := list Event.

(** Synchronous code: returns or throws, and may start fetches. *)
Definition Js (A : Type) : Type := World -> Exc A * World.

(** A call of an [async] function: always a promise, never a throw. *)
Definition Async (A : Type) : Type := World -> Promise A * World.

Definition ret {A} (a : A) : Js A := fun w => (Return a, w).

Definition throw {A} (e : JSError) : Js A := fun w => (Throw e, w).

Definition bind {A B} (c : Js A) (k : A -> Js B) : Js B :=
  fun w =>
    match c w with
    | (Return a, w') => k a w'
    | (Throw e, w') => (Throw e, w')
    end.

Notation "x <- c ;; k" := (bind c (fun x => k))
  (at level 61, c at next level, right associativity).
Notation "c ;;; k" := (bind c (fun _ => k))
  (at level 61, right associativity).

Definition lift {A} (r : Exc A) : Js A := fun w => (r, w).

(** [try { body } catch (error) { handler(error) }] *)
Definition try_catch {A} (body : Js A) (handler : JSError -> Js A) : Js A :=
  fun w =>
    match body w with
    | (Return a, w') => (Return a, w')
    | (Throw e, w') => handler e w'
    end.

(** The body of an [async] function becomes its promise: a returned value
    fulfils it, a returned promise is adopted, a throw rejects it. *)
Definition async {A} (body : Js (Returned A)) : Async A :=
  fun w =>
    match body w with
    | (Return (Value a), w') => (Fulfilled a, w')
    | (Return (Thenable p), w') => (p, w')
    | (Throw e, w') => (Rejected e, w')
    end.

(** Calling an [async] function from synchronous code. *)
Definition call {A} (f : Async A) : Js (Promise A) :=
  fun w => let (p, w') := f w in (Return p, w').

(** [await p] *)
Definition await {A} (p : Promise A) : Js A :=
  match p with
  | Fulfilled a => ret a
  | Rejected e => throw e
  end.

(** [Promise.all(ps)]: fulfilled with all the values, or rejected as soon
    as one promise is.  Which of several rejections the engine reports
    depends on the order in which they settle; the error given here is the
    first in the list, and the statements about several fetches say that
    the result is rejected without naming the error. *)
Fixpoint Promise_all {A} (ps : list (Promise A)) : Promise (list A) :=
  match ps with
  | [] => Fulfilled []
  | Rejected e :: _ => Rejected e
  | Fulfilled a :: rest =>
      match Promise_all rest with
      | Fulfilled l => Fulfilled (a :: l)
      | Rejected e => Rejected e
      end
  end.

(** [xs.map(f)] where [f] has effects. *)
Fixpoint mapJs {A B} (f : A -> Js B) (xs : list A) : Js (list B) :=
  match xs with
  | [] => ret []
  | x :: rest => y <- f x ;; ys <- mapJs f rest ;; ret (y :: ys)
  end.

Module JsValue.

Fixpoint lookup (key : string) (fields : list (string * JValue)) : JValue :=
  match fields with
  | [] => JUndefined
  | (k, v) :: rest => if String.eqb k key then v else lookup key rest
  end.

Fixpoint has_key (key : string) (fields : list (string * JValue)) : bool :=
  match fields with
  | [] => false
  | (k, _) :: rest => (String.eqb k key || has_key key rest)%bool
  end.

(** [v.key], for the property names the program reads (none of them is
    defined on a prototype): own properties of an object, [undefined] on
    any other value, a [TypeError] on [undefined] and [null]. *)
Definition get (v : JValue) (key : string) : Exc JValue :=
  match v with
  | JUndefined =>
      Throw (TypeError ("Cannot read properties of undefined (reading '" ++ key ++ "')"))
  | JNull =>
      Throw (TypeError ("Cannot read properties of null (reading '" ++ key ++ "')"))
  | JObj fields => Return (lookup key fields)
  | _ => Return JUndefined
  end.

(** [const { a, b } = v]: fails on [undefined] and [null] only. *)
Definition destructurable (what first : string) (v : JValue) : Exc unit :=
  match v with
  | JUndefined =>
      Throw (TypeError ("Cannot destructure property '" ++ first ++ "' of '" ++ what
                        ++ "' as it is undefined."))
  | JNull =>
      Throw (TypeError ("Cannot destructure property '" ++ first ++ "' of '" ++ what
                        ++ "' as it is null."))
  | _ => Return tt
  end.

Definition truthy (v : JValue) : bool :=
  match v with
  | JUndefined | JNull => false
  | JBool b => b
  | JNum n => negb (JsNumber.is_zero n)
  | JStr s => negb (String.eqb s EmptyString)
  | JArr _ | JObj _ => true
  end.

(** [a || b] *)
Definition or (a b : JValue) : JValue := if truthy a then a else b.

(** [v === 'literal'] *)
Definition is_string (v : JValue) (literal : string) : bool :=
  match v with
  | JStr s => String.eqb s literal
  | _ => false
  end.

(** [`${v}`]: the string a template literal makes of [v].  A parsed JSON
    object prints as [[object Object]], unless it has a property named
    [toString] of its own, which is then not callable and makes the
    conversion fail. *)
Fixpoint toString (v : JValue) : Exc string :=
  match v with
  | JUndefined => Return "undefined"
  | JNull => Return "null"
  | JBool true => Return "true"
  | JBool false => Return "false"
  | JNum n => Return (JsNumber.toString n)
  | JStr s => Return s
  | JArr items =>
      let fix each (l : list JValue) : Exc (list string) :=
        match l with
        | [] => Return []
        | x :: rest =>
            let head :=
              match x with
              | JUndefined | JNull => Return EmptyString
              | _ => toString x
              end in
            match head with
            | Throw e => Throw e
            | Return s =>
                match each rest with
                | Throw e => Throw e
                | Return ss => Return (s :: ss)
                end
            end
        end in
      match each items with
      | Throw e => Throw e
      | Return ss => Return (JsString.join "," ss)
      end
  | JObj fields =>
      if has_key "toString" fields
      then Throw (TypeError "Cannot convert object to primitive value")
      else Return "[object Object]"
  end.

(** A parameter declared with a default value takes it when the argument
    is [undefined]. *)
Definition parameter_default (argument fallback : JValue) : JValue :=
  match argument with
  | JUndefined => fallback
  | _ => argument
  end.

(** [v.trim()] *)
Definition trim (what : string) (v : JValue) : Exc string :=
  match v with
  | JStr s => Return (JsString.trim s)
  | JUndefined | JNull =>
      Throw (TypeError "Cannot read properties of undefined (reading 'trim')")
  | _ => Throw (TypeError (what ++ ".trim is not a function"))
  end.

End JsValue.

(** ** The weather client ([WeatherService]) *)

Definition LF : string := String "010"%char EmptyString.
Definition quote : string := String "034"%char EmptyString.

Module WeatherTypes.

(** Modelled from the spec: the declaration of [WeatherData] (file
    [weather.types]) is not among the sources; these are the fields the
    spec's WeatherRecord lists and [getMockWeatherData] fills.  The
    [timestamp] is held as the text [toISOString] gives for it. *)
Record WeatherData : Type := {
  city : string;
  country : string;
  temperature : JSNumber;
  feelsLike : JSNumber;
  humidity : JSNumber;
  pressure : JSNumber;
  description : string;
  windSpeed : JSNumber;
  windDirection : JSNumber;
  visibility : JSNumber;
  units : JValue;
  timestamp : string
}.

Record Sys : Type := { sys_country : string }.
Record Main : Type := {
  temp : JSNumber; feels_like : JSNumber;
  main_humidity : JSNumber; main_pressure : JSNumber
}.
Record Condition : Type := { condition_description : string }.
Record Wind : Type := { speed : JSNumber; deg : JSNumber }.

(** Modelled from the spec: the declaration of [OpenWeatherMapResponse]
    (file [weather.types]) is not among the sources; these are the
    fields [transformWeatherData] reads.  The objects it reads through
    may be missing from what the provider sends. *)
Record OpenWeatherMapResponse : Type := {
  name : string;
  sys : option Sys;             (* [None]: the answer has no [sys] *)
  main : option Main;
  weather : list Condition;     (* [[]]: no [weather[0]] *)
  wind : option Wind;
  data_visibility : JSNumber
}.

End WeatherTypes.

Definition WeatherData : Type := WeatherTypes.WeatherData.
Definition OpenWeatherMapResponse : Type := WeatherTypes.OpenWeatherMapResponse.

(** What the program does not decide: the configured credential, the
    provider's answer to the [k]-th fetch ([axios.get] with parameters
    [q], [appid] and [units]), and the time at which the [k]-th fetch
    builds its record. *)
Record Env : Type := {
  OPENWEATHER_API_KEY : option string;
  axios_get : nat -> JValue -> string -> JValue -> Promise OpenWeatherMapResponse;
  new_Date : nat -> string
}.

Section WeatherService.

Variable env : Env.

(** [this.configService.get('OPENWEATHER_API_KEY') || 'demo-key'] *)
Definition apiKey : string :=
  match OPENWEATHER_API_KEY env with
  | Some key => if String.eqb key EmptyString then "demo-key" else key
  | None => "demo-key"
  end.

Definition transformWeatherData (k : nat) (data : OpenWeatherMapResponse)
    (units : JValue) : Exc WeatherData :=
  match WeatherTypes.sys data with
  | None => Throw (TypeError "Cannot read properties of undefined (reading 'country')")
  | Some sys =>
  match WeatherTypes.main data with
  | None => Throw (TypeError "Cannot read properties of undefined (reading 'temp')")
  | Some main =>
  match WeatherTypes.weather data with
  | [] => Throw (TypeError "Cannot read properties of undefined (reading 'description')")
  | first :: _ =>
  match WeatherTypes.wind data with
  | None => Throw (TypeError "Cannot read properties of undefined (reading 'speed')")
  | Some wind =>
      Return {|
        WeatherTypes.city := WeatherTypes.name data;
        WeatherTypes.country := WeatherTypes.sys_country sys;
        WeatherTypes.temperature := JsNumber.round (WeatherTypes.temp main);
        WeatherTypes.feelsLike := JsNumber.round (WeatherTypes.feels_like main);
        WeatherTypes.humidity := WeatherTypes.main_humidity main;
        WeatherTypes.pressure := WeatherTypes.main_pressure main;
        WeatherTypes.description := WeatherTypes.condition_description first;
        WeatherTypes.windSpeed := WeatherTypes.speed wind;
        WeatherTypes.windDirection := WeatherTypes.deg wind;
        WeatherTypes.visibility := WeatherTypes.data_visibility data;
        WeatherTypes.units := units;
        WeatherTypes.timestamp := new_Date env k
      |}
  end end end end.

Definition getMockWeatherData (k : nat) (city units : JValue) : Exc WeatherData :=
  let isMetric := JsValue.is_string units "metric" in
  match city with
  | JStr c =>
      Return {|
        WeatherTypes.city :=
          JsString.toUpperCase (JsString.charAt0 c)
            ++ JsString.toLowerCase (JsString.slice1 c);
        WeatherTypes.country := "XX";
        WeatherTypes.temperature := JsNumber.of_Z (if isMetric then 22 else 72);
        WeatherTypes.feelsLike := JsNumber.of_Z (if isMetric then 24 else 75);
        WeatherTypes.humidity := JsNumber.of_Z 65;
        WeatherTypes.pressure := JsNumber.of_Z 1013;
        WeatherTypes.description := "partly cloudy";
        WeatherTypes.windSpeed := if isMetric then mkNumber 52 1 else mkNumber 116 1;
        WeatherTypes.windDirection := JsNumber.of_Z 180;
        WeatherTypes.visibility := JsNumber.of_Z 10000;
        WeatherTypes.units := units;
        WeatherTypes.timestamp := new_Date env k
      |}
  | _ => Throw (TypeError "city.charAt is not a function")
  end.

(** The test [!city || city.trim().length === 0]. *)
Definition cityIsMissing (city : JValue) : Exc bool :=
  if negb (JsValue.truthy city) then Return true
  else match JsValue.trim "city" city with
       | Return t => Return (Nat.eqb (String.length t) 0)
       | Throw e => Throw e
       end.

(** [error.response?.status === n] *)
Definition status_is (error : JSError) (n : Z) : bool :=
  match response_status error with
  | Some status => status =? n
  | None => false
  end.

(** The [catch] block around the provider call. *)
Definition fetchFailed (city : JValue) (error : JSError) : Js (Returned WeatherData) :=
  if status_is error 404 then
    c <- lift (JsValue.toString city) ;;
    throw (BadRequestException ("City " ++ quote ++ c ++ quote ++ " not found"))
  else if status_is error 401 then
    throw (BadRequestException "Invalid API key")
  else
    throw (BadRequestException "Failed to fetch weather data").

(** The body of [getWeatherByCity] for the [k]-th fetch.  Its first
    statement builds the log line from [city] and [units]. *)
Definition getWeatherByCity_body (k : nat) (city units : JValue)
    : Js (Returned WeatherData) :=
  lift (JsValue.toString city) ;;;
  lift (JsValue.toString units) ;;;
  missing <- lift (cityIsMissing city) ;;
  if missing then throw (BadRequestException "City name is required")
  else if String.eqb apiKey "demo-key" then
    weather <- lift (getMockWeatherData k city units) ;;
    ret (Value weather)
  else
    try_catch
      (data <- await (axios_get env k city apiKey units) ;;
       weather <- lift (transformWeatherData k data units) ;;
       ret (Value weather))
      (fetchFailed city).

Definition getWeatherByCity (city units : JValue) : Async WeatherData :=
  fun w =>
    let units := JsValue.parameter_default units (JStr "metric") in
    async (getWeatherByCity_body (Datatypes.length w) city units)
          (w ++ [FetchWeather city units])%list.

Definition formatWeatherForDisplay (weather : WeatherData) : string :=
  let metric := JsValue.is_string (WeatherTypes.units weather) "metric" in
  let tempUnit := if metric then "°C" else "°F" in
  let speedUnit := if metric then "m/s" else "mph" in
  "Weather in " ++ WeatherTypes.city weather ++ ", " ++ WeatherTypes.country weather ++ ":" ++ LF
  ++ "Temperature: " ++ JsNumber.toString (WeatherTypes.temperature weather) ++ tempUnit
  ++ " (feels like " ++ JsNumber.toString (WeatherTypes.feelsLike weather) ++ tempUnit ++ ")" ++ LF
  ++ "Condition: " ++ WeatherTypes.description weather ++ LF
  ++ "Humidity: " ++ JsNumber.toString (WeatherTypes.humidity weather) ++ "%" ++ LF
  ++ "Pressure: " ++ JsNumber.toString (WeatherTypes.pressure weather) ++ " hPa" ++ LF
  ++ "Wind: " ++ JsNumber.toString (WeatherTypes.windSpeed weather) ++ " " ++ speedUnit
  ++ " at " ++ JsNumber.toString (WeatherTypes.windDirection weather) ++ "°" ++ LF
  ++ "Visibility: " ++ JsNumber.toString (JsNumber.div1000 (WeatherTypes.visibility weather))
  ++ " km" ++ LF
  ++ "Last updated: " ++ WeatherTypes.timestamp weather.

End WeatherService.

(** ** The protocol types ([mcp.types]) *)

Module MCPRequest.
Record t : Type := mk {
  jsonrpc : string;
  id : JValue;          (* [JUndefined] when the request has no id *)
  method : string;
  params : JValue       (* [JUndefined] when the request has no params *)
}.
End MCPRequest.

Module MCPError.
(** The optional [data] member is never set by the program. *)
Record t : Type := mk { code : Z; message : string }.
End MCPError.

Module MCPResponse.
Record t : Type := mk {
  jsonrpc : string;
  id : JValue;
  result : option JValue;
  error : option MCPError.t
}.
End MCPResponse.

(** ** The HTTP-facing router ([MCPService]) *)

Section MCPService.

Variable env : Env.

Definition getServerCapabilities : JValue :=
  JObj [ ("tools", JObj [("listChanged", JBool true)]);
         ("prompts", JObj [("listChanged", JBool true)]) ].

Definition getAvailableTools : JValue :=
  JArr [
    JObj [
      ("name", JStr "get-weather");
      ("description", JStr "Get current weather information for a city");
      ("inputSchema", JObj [
        ("type", JStr "object");
        ("properties", JObj [
          ("city", JObj [
            ("type", JStr "string");
            ("description", JStr "The city name to get weather for") ]);
          ("units", JObj [
            ("type", JStr "string");
            ("enum", JArr [JStr "metric"; JStr "imperial"]);
            ("description",
             JStr "Temperature units (metric for Celsius, imperial for Fahrenheit)");
            ("default", JStr "metric") ]) ]);
        ("required", JArr [JStr "city"]) ]) ] ].

Definition promptArgument (name description : string) (required : bool) : JValue :=
  JObj [ ("name", JStr name); ("description", JStr description);
         ("required", JBool required) ].

Definition getAvailablePrompts : JValue :=
  JArr [
    JObj [
      ("name", JStr "weather-report");
      ("description",
       JStr "Generate a comprehensive weather report for a city with analysis and recommendations");
      ("arguments", JArr [
        promptArgument "city" "The city to get weather for" true;
        promptArgument "units" "Temperature units (metric or imperial)" false ]) ];
    JObj [
      ("name", JStr "travel-weather-advice");
      ("description", JStr "Get weather-based travel advice for multiple cities");
      ("arguments", JArr [
        promptArgument "cities" "Comma-separated list of cities to check" true;
        promptArgument "travel_date" "Intended travel date (for context)" false ]) ];
    JObj [
      ("name", JStr "weather-comparison");
      ("description", JStr "Compare weather conditions between two cities");
      ("arguments", JArr [
        promptArgument "city1" "First city to compare" true;
        promptArgument "city2" "Second city to compare" true ]) ] ].

Definition createErrorResponse (id : JValue) (code : Z) (message : string)
    : MCPResponse.t :=
  {| MCPResponse.jsonrpc := "2.0";
     MCPResponse.id := id;
     MCPResponse.result := None;
     MCPResponse.error := Some (MCPError.mk code message) |}.

Definition success (id : JValue) (result : JValue) : MCPResponse.t :=
  {| MCPResponse.jsonrpc := "2.0";
     MCPResponse.id := id;
     MCPResponse.result := Some result;
     MCPResponse.error := None |}.

Definition handleInitialize (request : MCPRequest.t) : MCPResponse.t :=
  success (MCPRequest.id request)
    (JObj [ ("protocolVersion", JStr "2024-11-05");
            ("capabilities", getServerCapabilities);
            ("serverInfo", JObj [ ("name", JStr "weather-mcp-server");
                                  ("version", JStr "1.0.0") ]) ]).

Definition handleToolsList (request : MCPRequest.t) : MCPResponse.t :=
  success (MCPRequest.id request) (JObj [("tools", getAvailableTools)]).

Definition handlePromptsList (request : MCPRequest.t) : MCPResponse.t :=
  success (MCPRequest.id request) (JObj [("prompts", getAvailablePrompts)]).

(** [{ content: [ { type: 'text', text } ] }] *)
Definition textContent (text : string) : JValue :=
  JArr [ JObj [("type", JStr "text"); ("text", JStr text)] ].

Definition handleToolsCall (request : MCPRequest.t) : Async MCPResponse.t :=
  async (
    let params := MCPRequest.params request in
    lift (JsValue.destructurable "request.params" "name" params) ;;;
    name <- lift (JsValue.get params "name") ;;
    args <- lift (JsValue.get params "arguments") ;;
    if JsValue.is_string name "get-weather" then
      try_catch
        (city <- lift (JsValue.get args "city") ;;
         units <- lift (JsValue.get args "units") ;;
         fetch <- call (getWeatherByCity env city (JsValue.or units (JStr "metric"))) ;;
         weather <- await fetch ;;
         let weatherText := formatWeatherForDisplay weather in
         ret (Value (success (MCPRequest.id request)
                       (JObj [("content", textContent weatherText)]))))
        (fun error =>
           ret (Value (createErrorResponse (MCPRequest.id request) (-32603)
                         ("Weather service error: " ++ error_message error))))
    else
      ret (Value (createErrorResponse (MCPRequest.id request) (-32602) "Unknown tool"))).

(** [messages: [ { role: 'user', content: { type: 'text', text } } ]] *)
Definition userMessages (text : string) : JValue :=
  JArr [ JObj [ ("role", JStr "user");
                ("content", JObj [("type", JStr "text"); ("text", JStr text)]) ] ].

Definition promptResult (description text : string) : MCPResponse.t :=
  success (JNum (JsNumber.of_Z 1))
    (JObj [ ("description", JStr description); ("messages", userMessages text) ]).

Definition weatherReportText (weatherText : string) : string :=
  "Please analyze this weather data and provide a comprehensive weather report with insights and recommendations:"
  ++ LF ++ LF ++ weatherText ++ LF ++ LF
  ++ "Include:" ++ LF
  ++ "- Current conditions summary" ++ LF
  ++ "- Comfort level analysis" ++ LF
  ++ "- Activity recommendations" ++ LF
  ++ "- What to wear suggestions" ++ LF
  ++ "- Any weather alerts or notable conditions".

Definition generateWeatherReportPrompt (args : JValue) : Async MCPResponse.t :=
  async (
    city0 <- lift (JsValue.get args "city") ;;
    let city := JsValue.or city0 (JStr "London") in
    units0 <- lift (JsValue.get args "units") ;;
    let units := JsValue.or units0 (JStr "metric") in
    fetch <- call (getWeatherByCity env city units) ;;
    weather <- await fetch ;;
    let weatherText := formatWeatherForDisplay weather in
    cityText <- lift (JsValue.toString city) ;;
    ret (Value (promptResult ("Comprehensive weather report for " ++ cityText)
                             (weatherReportText weatherText)))).

(** [v.split(',')] *)
Definition split_commas (v : JValue) : Exc (list string) :=
  match v with
  | JStr s => Return (JsString.split "," s)
  | _ => Throw (TypeError ("(args.cities || " ++ quote ++ "London,Paris" ++ quote
                           ++ ").split is not a function"))
  end.

Definition travelAdviceText (travelDate weatherTexts : string) : string :=
  "I'm planning to travel to these cities " ++ travelDate
  ++ ". Please analyze the weather conditions and provide travel advice:"
  ++ LF ++ LF ++ weatherTexts ++ LF ++ LF
  ++ "Please provide:" ++ LF
  ++ "- Best city for outdoor activities" ++ LF
  ++ "- Packing recommendations" ++ LF
  ++ "- Transportation considerations" ++ LF
  ++ "- Best times to visit each location" ++ LF
  ++ "- Any weather-related travel warnings".

Definition generateTravelWeatherAdvicePrompt (args : JValue) : Async MCPResponse.t :=
  async (
    cities0 <- lift (JsValue.get args "cities") ;;
    parts <- lift (split_commas (JsValue.or cities0 (JStr "London,Paris"))) ;;
    let cities := map JsString.trim parts in
    date0 <- lift (JsValue.get args "travel_date") ;;
    let travelDate := JsValue.or date0 (JStr "today") in
    weatherPromises <-
      mapJs (fun city => call (getWeatherByCity env (JStr city) (JStr "metric"))) cities ;;
    weatherResults <- await (Promise_all weatherPromises) ;;
    let weatherTexts :=
      JsString.join (LF ++ LF) (map formatWeatherForDisplay weatherResults) in
    dateText <- lift (JsValue.toString travelDate) ;;
    ret (Value (promptResult ("Travel weather advice for " ++ JsString.join ", " cities)
                             (travelAdviceText dateText weatherTexts)))).

Definition weatherComparisonText (city1 weather1Text city2 weather2Text : string)
    : string :=
  "Please compare the weather conditions between these two cities and help me decide which has better conditions:"
  ++ LF ++ LF ++ "**" ++ city1 ++ ":**" ++ LF ++ weather1Text
  ++ LF ++ LF ++ "**" ++ city2 ++ ":**" ++ LF ++ weather2Text ++ LF ++ LF
  ++ "Provide a detailed comparison including:" ++ LF
  ++ "- Temperature and comfort differences" ++ LF
  ++ "- Precipitation and visibility" ++ LF
  ++ "- Wind conditions" ++ LF
  ++ "- Overall weather quality" ++ LF
  ++ "- Recommendations for activities in each city".

(** [Promise.all([p1, p2])] *)
Definition Promise_all2 {A} (p1 p2 : Promise A) : Promise (A * A) :=
  match p1, p2 with
  | Rejected e, _ => Rejected e
  | Fulfilled _, Rejected e => Rejected e
  | Fulfilled a, Fulfilled b => Fulfilled (a, b)
  end.

Definition generateWeatherComparisonPrompt (args : JValue) : Async MCPResponse.t :=
  async (
    c1 <- lift (JsValue.get args "city1") ;;
    let city1 := JsValue.or c1 (JStr "London") in
    c2 <- lift (JsValue.get args "city2") ;;
    let city2 := JsValue.or c2 (JStr "Paris") in
    fetch1 <- call (getWeatherByCity env city1 (JStr "metric")) ;;
    fetch2 <- call (getWeatherByCity env city2 (JStr "metric")) ;;
    both <- await (Promise_all2 fetch1 fetch2) ;;
    let weather1Text := formatWeatherForDisplay (fst both) in
    let weather2Text := formatWeatherForDisplay (snd both) in
    city1Text <- lift (JsValue.toString city1) ;;
    city2Text <- lift (JsValue.toString city2) ;;
    ret (Value (promptResult
                  ("Weather comparison between " ++ city1Text ++ " and " ++ city2Text)
                  (weatherComparisonText city1Text weather1Text city2Text weather2Text)))).

Definition handlePromptsGet (request : MCPRequest.t) : Async MCPResponse.t :=
  async (
    let params := MCPRequest.params request in
    lift (JsValue.destructurable "request.params" "name" params) ;;;
    name <- lift (JsValue.get params "name") ;;
    args <- lift (JsValue.get params "arguments") ;;
    if JsValue.is_string name "weather-report" then
      p <- call (generateWeatherReportPrompt args) ;; ret (Thenable p)
    else if JsValue.is_string name "travel-weather-advice" then
      p <- call (generateTravelWeatherAdvicePrompt args) ;; ret (Thenable p)
    else if JsValue.is_string name "weather-comparison" then
      p <- call (generateWeatherComparisonPrompt args) ;; ret (Thenable p)
    else
      ret (Value (createErrorResponse (MCPRequest.id request) (-32602) "Unknown prompt"))).

(** [handleRequest]: the handlers of [tools/call] and [prompts/get] are
    [async], and the [switch] returns their promises as they are, inside
    the [try] block, without awaiting them. *)
Definition handleRequest (request : MCPRequest.t) : Async MCPResponse.t :=
  async (
    try_catch
      (let method := MCPRequest.method request in
       if String.eqb method "initialize" then
         ret (Value (handleInitialize request))
       else if String.eqb method "tools/list" then
         ret (Value (handleToolsList request))
       else if String.eqb method "tools/call" then
         p <- call (handleToolsCall request) ;; ret (Thenable p)
       else if String.eqb method "prompts/list" then
         ret (Value (handlePromptsList request))
       else if String.eqb method "prompts/get" then
         p <- call (handlePromptsGet request) ;; ret (Thenable p)
       else
         ret (Value (createErrorResponse (MCPRequest.id request) (-32601)
                       "Method not found")))
      (fun error =>
         ret (Value (createErrorResponse (MCPRequest.id request) (-32603)
                       "Internal error")))).

End MCPService.

(** ** The stdio tool handler ([WeatherMCPServer.setupToolHandlers]) *)

Module WeatherMCPServer.
Section Handlers.

Variable env : Env.

(** The handler registered for [CallToolRequestSchema]; its promise is
    handed to the protocol library. *)
Definition callToolHandler (request : MCPRequest.t) : Async JValue :=
  async (
    let params := MCPRequest.params request in
    lift (JsValue.destructurable "request.params" "name" params) ;;;
    name <- lift (JsValue.get params "name") ;;
    args <- lift (JsValue.get params "arguments") ;;
    if JsValue.is_string name "get-weather" then
      try_catch
        (city <- lift (JsValue.get args "city") ;;
         units <- lift (JsValue.get args "units") ;;
         fetch <- call (getWeatherByCity env city (JsValue.or units (JStr "metric"))) ;;
         weather <- await fetch ;;
         let weatherText := formatWeatherForDisplay weather in
         ret (Value (JObj [("content", textContent weatherText)])))
        (fun error =>
           ret (Value (JObj [ ("content",
                               textContent ("Error getting weather: " ++ error_message error));
                              ("isError", JBool true) ])))
    else
      nameText <- lift (JsValue.toString name) ;;
      throw (Error ("Unknown tool: " ++ nameText))).

End Handlers.
End WeatherMCPServer.

(** ** Vocabulary of the statements *)


(** The promise the [k]-th fetch yields for [city] and [units]. *)
Definition fetched (env : Env) (k : nat) (city units : JValue) : Promise WeatherData :=
  fst (async (getWeatherByCity_body env k city units) []).

(** The promises of the fetches started one after the other, from the
    [k]-th on, for [cities] in metric units. *)
Fixpoint fetchedEach (env : Env) (k : nat) (cities : list string)
    : list (Promise WeatherData) :=
  match cities with
  | [] => []
  | city :: rest => fetched env k (JStr city) (JStr "metric") :: fetchedEach env (S k) rest
  end.

Definition fetchEvents (cities : list string) : list Event :=
  map (fun city => FetchWeather (JStr city) (JStr "metric")) cities.

(** A response carries a result or an error, not both and not neither. *)
Definition exactly_one_payload (r : MCPResponse.t) : bool :=
  match MCPResponse.result r, MCPResponse.error r with
  | Some _, None | None, Some _ => true
  | _, _ => false
  end.

(** The record the mock path builds for a city name, at a given time. *)
Definition mockRecord (city : string) (units : JValue) (time : string) : WeatherData :=
  let isMetric := JsValue.is_string units "metric" in
  {| WeatherTypes.city :=
       JsString.toUpperCase (JsString.charAt0 city)
         ++ JsString.toLowerCase (JsString.slice1 city);
     WeatherTypes.country := "XX";
     WeatherTypes.temperature := JsNumber.of_Z (if isMetric then 22 else 72);
     WeatherTypes.feelsLike := JsNumber.of_Z (if isMetric then 24 else 75);
     WeatherTypes.humidity := JsNumber.of_Z 65;
     WeatherTypes.pressure := JsNumber.of_Z 1013;
     WeatherTypes.description := "partly cloudy";
     WeatherTypes.windSpeed := if isMetric then mkNumber 52 1 else mkNumber 116 1;
     WeatherTypes.windDirection := JsNumber.of_Z 180;
     WeatherTypes.visibility := JsNumber.of_Z 10000;
     WeatherTypes.units := units;
     WeatherTypes.timestamp := time |}.

(** A configuration without credential, whose provider is never reached. *)
Definition demoEnv : Env :=
  {| OPENWEATHER_API_KEY := None;
     axios_get := fun _ _ _ _ => Rejected (AxiosError None "Network Error");
     new_Date := fun _ => "2025-01-01T00:00:00.000Z" |}.

Definition request (id : Z) (method : string) (params : JValue) : MCPRequest.t :=
  MCPRequest.mk "2.0" (JNum (JsNumber.of_Z id)) method params.

Definition named (name : string) (arguments : JValue) : JValue :=
  JObj [("name", JStr name); ("arguments", arguments)].

(** ** The HTTP endpoint ([MCPController]) *)

Section MCPController.

Variable env : Env.

(** [handleMCPRequest]: awaits the router and hands its response on.  The
    two log lines print the request and the response with [JSON.stringify],
    which cannot fail on parsed JSON. *)
Definition handleMCPRequest (request : MCPRequest.t) : Async MCPResponse.t :=
  async (
    answer <- call (handleRequest env request) ;;
    response <- await answer ;;
    ret (Value response)).

End MCPController.

(** ** The stdio server's tool list ([WeatherMCPServer.setupToolHandlers]) *)

Module McpStdio.

(** The handler registered for [ListToolsRequestSchema]. *)
Definition listToolsHandler : Async JValue :=
  async (
    ret (Value (JObj [
      ("tools", JArr [
        JObj [
          ("name", JStr "get-weather");
          ("description", JStr "Get current weather information for a city");
          ("inputSchema", JObj [
            ("type", JStr "object");
            ("properties", JObj [
              ("city", JObj [
                ("type", JStr "string");
                ("description", JStr "The city name to get weather for") ]);
              ("units", JObj [
                ("type", JStr "string");
                ("enum", JArr [JStr "metric"; JStr "imperial"]);
                ("description",
                 JStr "Temperature units (metric for Celsius, imperial for Fahrenheit)");
                ("default", JStr "metric") ]) ]);
            ("required", JArr [JStr "city"]) ]) ] ]) ]))).

End McpStdio.

(** ** The compiled stdio server (its own [WeatherService] and
    [WeatherMCPServer], in plain JavaScript) *)

Module McpStdioCompiled.
Section Server.

Variable env : Env.

(** [process.env.OPENWEATHER_API_KEY || 'demo-key'] *)
Definition apiKey : string :=
  match OPENWEATHER_API_KEY env with
  | Some key => if String.eqb key EmptyString then "demo-key" else key
  | None => "demo-key"
  end.

(** The [catch] block around the provider call; it throws plain [Error]s. *)
Definition fetchFailed (city : JValue) (error : JSError) : Js (Returned WeatherData) :=
  if status_is error 404 then
    c <- lift (JsValue.toString city) ;;
    throw (Error ("City " ++ quote ++ c ++ quote ++ " not found"))
  else if status_is error 401 then
    throw (Error "Invalid API key")
  else
    throw (Error "Failed to fetch weather data").

(** The body of this [getWeatherByCity]: no log line.  Its
    [transformWeatherData] and [getMockWeatherData] repeat those of the
    TypeScript service word for word, and so does its
    [formatWeatherForDisplay]. *)
Definition getWeatherByCity_body (k : nat) (city units : JValue)
    : Js (Returned WeatherData) :=
  missing <- lift (cityIsMissing city) ;;
  if missing then throw (Error "City name is required")
  else if String.eqb apiKey "demo-key" then
    weather <- lift (getMockWeatherData env k city units) ;;
    ret (Value weather)
  else
    try_catch
      (data <- await (axios_get env k city apiKey units) ;;
       weather <- lift (transformWeatherData env k data units) ;;
       ret (Value weather))
      (fetchFailed city).

Definition getWeatherByCity (city units : JValue) : Async WeatherData :=
  fun w =>
    let units := JsValue.parameter_default units (JStr "metric") in
    async (getWeatherByCity_body (Datatypes.length w) city units)
          (w ++ [FetchWeather city units])%list.

(** The handler registered for [ListToolsRequestSchema]. *)
Definition listToolsHandler : Async JValue :=
  async (
    ret (Value (JObj [
      ("tools", JArr [
        JObj [
          ("name", JStr "get-weather");
          ("description", JStr "Get current weather information for a city");
          ("inputSchema", JObj [
            ("type", JStr "object");
            ("properties", JObj [
              ("city", JObj [
                ("type", JStr "string");
                ("description", JStr "The city name to get weather for") ]);
              ("units", JObj [
                ("type", JStr "string");
                ("enum", JArr [JStr "metric"; JStr "imperial"]);
                ("description",
                 JStr "Temperature units (metric for Celsius, imperial for Fahrenheit)");
                ("default", JStr "metric") ]) ]);
            ("required", JArr [JStr "city"]) ]) ] ]) ]))).

(** The handler registered for [CallToolRequestSchema]. *)
Definition callToolHandler (request : MCPRequest.t) : Async JValue :=
  async (
    let params := MCPRequest.params request in
    lift (JsValue.destructurable "request.params" "name" params) ;;;
    name <- lift (JsValue.get params "name") ;;
    args <- lift (JsValue.get params "arguments") ;;
    if JsValue.is_string name "get-weather" then
      try_catch
        (city <- lift (JsValue.get args "city") ;;
         units <- lift (JsValue.get args "units") ;;
         fetch <- call (getWeatherByCity city (JsValue.or units (JStr "metric"))) ;;
         weather <- await fetch ;;
         let weatherText := formatWeatherForDisplay weather in
         ret (Value (JObj [("content", textContent weatherText)])))
        (fun error =>
           ret (Value (JObj [ ("content",
                               textContent ("Error getting weather: " ++ error_message error));
                              ("isError", JBool true) ])))
    else
      nameText <- lift (JsValue.toString name) ;;
      throw (Error ("Unknown tool: " ++ nameText))).


(** [{ description, messages: [ one user message ] }] *)
Definition prompt (description text : string) : JValue :=
  JObj [ ("description", JStr description); ("messages", userMessages text) ].

Definition generateWeatherReportPrompt (args : JValue) : Async JValue :=
  async (
    city0 <- lift (JsValue.get args "city") ;;
    let city := JsValue.or city0 (JStr "London") in
    units0 <- lift (JsValue.get args "units") ;;
    let units := JsValue.or units0 (JStr "metric") in
    fetch <- call (getWeatherByCity city units) ;;
    weather <- await fetch ;;
    let weatherText := formatWeatherForDisplay weather in
    cityText <- lift (JsValue.toString city) ;;
    ret (Value (prompt ("Comprehensive weather report for " ++ cityText)
                       (weatherReportText weatherText)))).

Definition generateTravelWeatherAdvicePrompt (args : JValue) : Async JValue :=
  async (
    cities0 <- lift (JsValue.get args "cities") ;;
    parts <- lift (split_commas (JsValue.or cities0 (JStr "London,Paris"))) ;;
    let cities := map JsString.trim parts in
    date0 <- lift (JsValue.get args "travel_date") ;;
    let travelDate := JsValue.or date0 (JStr "today") in
    weatherPromises <-
      mapJs (fun city => call (getWeatherByCity (JStr city) (JStr "metric"))) cities ;;
    weatherResults <- await (Promise_all weatherPromises) ;;
    let weatherTexts :=
      JsString.join (LF ++ LF) (map formatWeatherForDisplay weatherResults) in
    dateText <- lift (JsValue.toString travelDate) ;;
    ret (Value (prompt ("Travel weather advice for " ++ JsString.join ", " cities)
                       (travelAdviceText dateText weatherTexts)))).

Definition generateWeatherComparisonPrompt (args : JValue) : Async JValue :=
  async (
    c1 <- lift (JsValue.get args "city1") ;;
    let city1 := JsValue.or c1 (JStr "London") in
    c2 <- lift (JsValue.get args "city2") ;;
    let city2 := JsValue.or c2 (JStr "Paris") in
    fetch1 <- call (getWeatherByCity city1 (JStr "metric")) ;;
    fetch2 <- call (getWeatherByCity city2 (JStr "metric")) ;;
    both <- await (Promise_all2 fetch1 fetch2) ;;
    let weather1Text := formatWeatherForDisplay (fst both) in
    let weather2Text := formatWeatherForDisplay (snd both) in
    city1Text <- lift (JsValue.toString city1) ;;
    city2Text <- lift (JsValue.toString city2) ;;
    ret (Value (prompt
                  ("Weather comparison between " ++ city1Text ++ " and " ++ city2Text)
                  (weatherComparisonText city1Text weather1Text city2Text weather2Text)))).

(** The handler registered for [GetPromptRequestSchema]; absent arguments
    are replaced by an empty object. *)
Definition getPromptHandler (request : MCPRequest.t) : Async JValue :=
  async (
    let params := MCPRequest.params request in
    lift (JsValue.destructurable "request.params" "name" params) ;;;
    name <- lift (JsValue.get params "name") ;;
    args <- lift (JsValue.get params "arguments") ;;
    if JsValue.is_string name "weather-report" then
      p <- call (generateWeatherReportPrompt (JsValue.or args (JObj []))) ;;
      ret (Thenable p)
    else if JsValue.is_string name "travel-weather-advice" then
      p <- call (generateTravelWeatherAdvicePrompt (JsValue.or args (JObj []))) ;;
      ret (Thenable p)
    else if JsValue.is_string name "weather-comparison" then
      p <- call (generateWeatherComparisonPrompt (JsValue.or args (JObj []))) ;;
      ret (Thenable p)
    else
      nameText <- lift (JsValue.toString name) ;;
      throw (Error ("Unknown prompt: " ++ nameText))).

End Server.

(** The promise the [k]-th fetch of the compiled service yields. *)
Definition fetched (env : Env) (k : nat) (city units : JValue) : Promise WeatherData :=
  fst (async (getWeatherByCity_body env k city units) []).

Fixpoint fetchedEach (env : Env) (k : nat) (cities : list string)
    : list (Promise WeatherData) :=
  match cities with
  | [] => []
  | city :: rest => fetched env k (JStr city) (JStr "metric") :: fetchedEach env (S k) rest
  end.

End McpStdioCompiled.

(** ** More vocabulary *)

(** [v.key] where it can be read. *)
Definition member (v : JValue) (key : string) : JValue :=
  match v with
  | JObj fields => JsValue.lookup key fields
  | _ => JUndefined
  end.

(** The effective arguments of the prompt generators. *)
Definition reportCity (args : JValue) : JValue :=
  JsValue.or (member args "city") (JStr "London").

Definition reportUnits (args : JValue) : JValue :=
  JsValue.or (member args "units") (JStr "metric").

Definition comparisonCity1 (args : JValue) : JValue :=
  JsValue.or (member args "city1") (JStr "London").

Definition comparisonCity2 (args : JValue) : JValue :=
  JsValue.or (member args "city2") (JStr "Paris").

(** A value whose properties can be read: neither [undefined] nor [null]. *)
Definition present (v : JValue) : bool :=
  match v with
  | JUndefined | JNull => false
  | _ => true
  end.

(** The number of commas in a text. *)
Fixpoint commas (s : string) : nat :=
  match s with
  | EmptyString => O
  | String c r => if Ascii.eqb c "," then S (commas r) else commas r
  end.

(** Two promises settle alike: with the same value, or with errors that
    carry the same message. *)
Definition same_outcome {A} (p q : Promise A) : Prop :=
  match p, q with
  | Fulfilled a, Fulfilled b => a = b
  | Rejected e, Rejected e' => error_message e = error_message e'
  | _, _ => False
  end.

(** The text with the given UTF-8 bytes. *)
Fixpoint bytes (codes : list nat) : string :=
  match codes with
  | [] => EmptyString
  | code :: rest => String (ascii_of_nat code) (bytes rest)
  end.

(** U+00A0, the no-break space; U+3000, the ideographic space; U+FEFF, the
    byte order mark; U+200B, the zero width space, which is no white
    space. *)
Definition nbsp : string := bytes [194; 160]%nat.
Definition ideographic_space : string := bytes [227; 128; 128]%nat.
Definition byte_order_mark : string := bytes [239; 187; 191]%nat.
Definition zero_width_space : string := bytes [226; 128; 139]%nat.

(** A configuration with a credential whose provider knows no city. *)
Definition liveEnv : Env :=
  {| OPENWEATHER_API_KEY := Some "secret";
     axios_get := fun _ _ _ _ =>
       Rejected (AxiosError (Some 404) "Request failed with status code 404");
     new_Date := fun _ => "2025-01-01T00:00:00.000Z" |}.

(** A provider answer, and a configuration whose provider gives it. *)
Definition sampleData : OpenWeatherMapResponse :=
  {| WeatherTypes.name := "Paris";
     WeatherTypes.sys := Some {| WeatherTypes.sys_country := "FR" |};
     WeatherTypes.main := Some {| WeatherTypes.temp := mkNumber 185 1;
                                  WeatherTypes.feels_like := mkNumber 1749 2;
                                  WeatherTypes.main_humidity := JsNumber.of_Z 70;
                                  WeatherTypes.main_pressure := JsNumber.of_Z 1009 |};
     WeatherTypes.weather := [ {| WeatherTypes.condition_description := "light rain" |} ];
     WeatherTypes.wind := Some {| WeatherTypes.speed := mkNumber 31 1;
                                  WeatherTypes.deg := JsNumber.of_Z 240 |};
     WeatherTypes.data_visibility := JsNumber.of_Z 9000 |}.

Definition servedEnv : Env :=
  {| OPENWEATHER_API_KEY := Some "secret";
     axios_get := fun _ _ _ _ => Fulfilled sampleData;
     new_Date := fun _ => "2025-01-01T00:00:00.000Z" |}.

(** * Properties *)

Ltac run :=
  cbv [async try_catch bind ret throw lift call await].

(** ** The weather client *)

Ltac cases :=
  repeat match goal with
         | |- context [match ?x with _ => _ end] => destruct x
         end.

Lemma getWeatherByCity_body_world env k city units w :
  getWeatherByCity_body env k city units w
  = (fst (getWeatherByCity_body env k city units []), w).
Proof.
  unfold getWeatherByCity_body, fetchFailed. run.
  destruct (JsValue.toString city); [|reflexivity].
  destruct (JsValue.toString units); [|reflexivity].
  destruct (cityIsMissing city) as [[|]|]; try reflexivity.
  destruct (String.eqb (apiKey env) "demo-key").
  - destruct (getMockWeatherData env k city units); reflexivity.
  - destruct (axios_get env k city (apiKey env) units) as [data|err].
    + destruct (transformWeatherData env k data units) as [d|err]; [reflexivity|].
      destruct (status_is err 404); [reflexivity|].
      destruct (status_is err 401); reflexivity.
    + destruct (status_is err 404); [reflexivity|].
      destruct (status_is err 401); reflexivity.
Qed.

Lemma getWeatherByCity_eq env city units w :
  units <> JUndefined ->
  getWeatherByCity env city units w
  = (fetched env (Datatypes.length w) city units, (w ++ [FetchWeather city units])%list).
Proof.
  intros Hunits. unfold getWeatherByCity, fetched, async.
  replace (JsValue.parameter_default units (JStr "metric")) with units
    by (destruct units; try reflexivity; now elim Hunits).
  cbv zeta. rewrite getWeatherByCity_body_world.
  destruct (getWeatherByCity_body env (Datatypes.length w) city units [])
    as [[[a|p]|e] w0]; reflexivity.
Qed.

Lemma or_defined (v : JValue) (literal : string) :
  JsValue.or v (JStr literal) <> JUndefined.
Proof. unfold JsValue.or. destruct v; simpl; try discriminate; cases; discriminate. Qed.

Lemma cityIsMissing_blank s :
  JsString.trim s = EmptyString -> cityIsMissing (JStr s) = Return true.
Proof.
  intros Hblank. unfold cityIsMissing. simpl.
  destruct (String.eqb s EmptyString); simpl; [reflexivity|].
  now rewrite Hblank.
Qed.

Lemma cityIsMissing_named s :
  JsString.trim s <> EmptyString -> cityIsMissing (JStr s) = Return false.
Proof.
  intros Hname. unfold cityIsMissing. simpl.
  destruct (String.eqb_spec s EmptyString) as [->|_]; simpl.
  - now elim Hname.
  - destruct (JsString.trim s); [now elim Hname | reflexivity].
Qed.

(** A blank city makes the fetch fail, whatever the configuration. *)
Lemma fetched_blank env k s units :
  JsString.trim s = EmptyString ->
  exists e,
    fetched env k (JStr s) units = Rejected e
    /\ (forall text, JsValue.toString units = Return text ->
        e = BadRequestException "City name is required").
Proof.
  intros Hblank. unfold fetched, getWeatherByCity_body. run. simpl.
  destruct (JsValue.toString units) as [text|e]; simpl.
  - rewrite (cityIsMissing_blank s Hblank). simpl. eauto.
  - exists e. split; [reflexivity | discriminate].
Qed.



(** ** Dispatch *)



(** C10. A [tools/call] or [prompts/get] request that has no [params] gets
    no response envelope: destructuring [request.params] throws inside the
    asynchronous handler, the handler's promise is rejected, and the promise
    of [handleRequest] is rejected with the same error instead of being
    fulfilled with a -32603 error envelope. *)
Theorem handleRequest_rejects_without_params env req w :
  MCPRequest.method req = "tools/call" \/ MCPRequest.method req = "prompts/get" ->
  MCPRequest.params req = JUndefined ->
  exists e,
    e = TypeError "Cannot destructure property 'name' of 'request.params' as it is undefined."
    /\ (handleToolsCall env req w = (Rejected e, w)
        /\ handlePromptsGet env req w = (Rejected e, w))
    /\ handleRequest env req w = (Rejected e, w)
    /\ forall response, fst (handleRequest env req w) <> Fulfilled response.
Proof.
  intros Hmethod Hparams. eexists. split; [reflexivity|].
  assert (Htool : handleToolsCall env req w
                  = (Rejected (TypeError "Cannot destructure property 'name' of 'request.params' as it is undefined."), w)).
  { unfold handleToolsCall. rewrite Hparams. reflexivity. }
  assert (Hprompt : handlePromptsGet env req w
                  = (Rejected (TypeError "Cannot destructure property 'name' of 'request.params' as it is undefined."), w)).
  { unfold handlePromptsGet. rewrite Hparams. reflexivity. }
  assert (Hreq : handleRequest env req w
                 = (Rejected (TypeError "Cannot destructure property 'name' of 'request.params' as it is undefined."), w)).
  { unfold handleRequest. run.
    destruct Hmethod as [-> | ->]; simpl; [rewrite Htool | rewrite Hprompt]; reflexivity. }
  repeat split; auto.
  intros response. rewrite Hreq. discriminate.
Qed.

Lemma handleRequest_rejects_without_params_witness :
  exists e,
    handleRequest demoEnv (request 1 "tools/call" JUndefined) [] = (Rejected e, []).
Proof.
  destruct (handleRequest_rejects_without_params demoEnv
              (request 1 "tools/call" JUndefined) [] (or_introl eq_refl) eq_refl)
    as [e [_ [_ [H _]]]].
  exists e. exact H.
Defined.

(** C9. The answers to [tools/list] and to [prompts/list] are the fixed
    catalogs, of one tool and of three prompts: they depend neither on the
    configuration nor on what was fetched before, so two identical requests
    get identical answers, and answering changes nothing. *)
Theorem list_requests_idempotent jsonrpc id params :
  let toolsList := MCPRequest.mk jsonrpc id "tools/list" params in
  let promptsList := MCPRequest.mk jsonrpc id "prompts/list" params in
  (forall env w,
      handleRequest env toolsList w
      = (Fulfilled (success id (JObj [("tools", getAvailableTools)])), w))
  /\ (forall env w,
      handleRequest env promptsList w
      = (Fulfilled (success id (JObj [("prompts", getAvailablePrompts)])), w))
  /\ (forall env env' w w',
      fst (handleRequest env toolsList w) = fst (handleRequest env' toolsList w')
      /\ fst (handleRequest env promptsList w) = fst (handleRequest env' promptsList w'))
  /\ (exists tool, getAvailableTools = JArr [tool])
  /\ (exists p1 p2 p3, getAvailablePrompts = JArr [p1; p2; p3]).
Proof.
  repeat split.
  - eexists. reflexivity.
  - do 3 eexists. reflexivity.
Qed.







(** ** Prompts *)






Lemma mapJs_fetches env (f : string -> Js (Promise WeatherData)) cities w :
  (forall city w0,
      f city w0 = (Return (fetched env (Datatypes.length w0) (JStr city) (JStr "metric")),
                   (w0 ++ [FetchWeather (JStr city) (JStr "metric")])%list)) ->
  mapJs f cities w
  = (Return (fetchedEach env (Datatypes.length w) cities), (w ++ fetchEvents cities)%list).
Proof.
  intros Hf. revert w. induction cities as [|city rest IH]; intros w; simpl.
  - unfold ret. now rewrite app_nil_r.
  - unfold bind at 1. rewrite Hf.
    unfold bind at 1. rewrite IH, length_app, <- app_assoc. simpl.
    now replace (Datatypes.length w + 1)%nat with (S (Datatypes.length w)) by lia.
Qed.

(** The promise of a handler returned by the [switch] becomes the promise
    of [handleRequest], rejected or not. *)
Lemma handleRequest_prompts_get env req w :
  MCPRequest.method req = "prompts/get" ->
  handleRequest env req w = handlePromptsGet env req w.
Proof.
  intros Hmethod. unfold handleRequest. run. rewrite Hmethod. simpl.
  destruct (handlePromptsGet env req w). reflexivity.
Qed.

Lemma handleRequest_tools_call env req w :
  MCPRequest.method req = "tools/call" ->
  handleRequest env req w = handleToolsCall env req w.
Proof.
  intros Hmethod. unfold handleRequest. run. rewrite Hmethod. simpl.
  destruct (handleToolsCall env req w). reflexivity.
Qed.

Lemma generateTravelWeatherAdvicePrompt_eq env args listed date s w :
  JsValue.get args "cities" = Return listed ->
  JsValue.get args "travel_date" = Return date ->
  JsValue.or listed (JStr "London,Paris") = JStr s ->
  let cities := map JsString.trim (JsString.split "," s) in
  generateTravelWeatherAdvicePrompt env args w
  = (match Promise_all (fetchedEach env (Datatypes.length w) cities) with
     | Fulfilled results =>
         match JsValue.toString (JsValue.or date (JStr "today")) with
         | Return dateText =>
             Fulfilled (promptResult
                          ("Travel weather advice for " ++ JsString.join ", " cities)
                          (travelAdviceText dateText
                             (JsString.join (LF ++ LF)
                                (map formatWeatherForDisplay results))))
         | Throw e => Rejected e
         end
     | Rejected e => Rejected e
     end,
     (w ++ fetchEvents cities)%list).
Proof.
  intros Hlisted Hdate Hs cities.
  unfold generateTravelWeatherAdvicePrompt. run.
  rewrite Hlisted, Hs. unfold split_commas. rewrite Hdate.
  rewrite (mapJs_fetches env).
  - fold cities.
    destruct (Promise_all (fetchedEach env (Datatypes.length w) cities)); [|reflexivity].
    destruct (JsValue.toString (JsValue.or date (JStr "today"))); reflexivity.
  - intros city w0. now rewrite getWeatherByCity_eq by discriminate.
Qed.

Lemma Promise_all_rejected {A} (ps : list (Promise A)) :
  (exists e, In (Rejected e) ps) -> exists e, Promise_all ps = Rejected e.
Proof.
  induction ps as [|p rest IH]; intros [e Hin]; simpl in *; [contradiction|].
  destruct p as [a|e'].
  - destruct Hin as [Heq|Hin]; [discriminate|].
    destruct (IH (ex_intro _ e Hin)) as [e0 ->]. eauto.
  - eauto.
Qed.






(** ** Where the router departs from its contract *)

(** C1, at a failing input.  A [prompts/get] of weather-report for a blank
    city: the weather client refuses the city, the generator's promise is
    rejected, and so is the promise of [handleRequest]; no -32603 envelope
    is produced. *)
Theorem handleRequest_failure_escapes :
  handleRequest demoEnv
    (request 1 "prompts/get" (named "weather-report" (JObj [("city", JStr " ")]))) []
  = (Rejected (BadRequestException "City name is required"),
     [FetchWeather (JStr " ") (JStr "metric")]).
Proof. reflexivity. Qed.

(** C2, at a failing input.  A [prompts/get] of weather-report sent with
    id 7 is answered under id 1. *)
Theorem prompt_answer_ignores_request_id :
  let req := request 7 "prompts/get" (named "weather-report" (JObj [("city", JStr "London")])) in
  exists answer,
    fst (handleRequest demoEnv req []) = Fulfilled answer
    /\ MCPResponse.id answer = JNum (JsNumber.of_Z 1)
    /\ MCPResponse.id answer <> MCPRequest.id req.
Proof.
  intros req. eexists. split; [reflexivity|]. split; [reflexivity | discriminate].
Qed.

(** What does hold of the answers to [tools/call]: the id is the request's
    and there is exactly one payload. *)
Lemma tools_call_answer_shape env req w answer :
  MCPRequest.method req = "tools/call" ->
  fst (handleRequest env req w) = Fulfilled answer ->
  MCPResponse.id answer = MCPRequest.id req /\ exactly_one_payload answer = true.
Proof.
  intros Hmethod. rewrite (handleRequest_tools_call env req w Hmethod).
  unfold handleToolsCall. run.
  destruct (JsValue.destructurable _ _ _); [|discriminate].
  destruct (JsValue.get (MCPRequest.params req) "name") as [name|]; [|discriminate].
  destruct (JsValue.get (MCPRequest.params req) "arguments") as [args|]; [|discriminate].
  destruct (JsValue.is_string name "get-weather").
  - destruct (JsValue.get args "city") as [city|];
      [|simpl; intros H; injection H as <-; now split].
    destruct (JsValue.get args "units") as [units|];
      [|simpl; intros H; injection H as <-; now split].
    rewrite getWeatherByCity_eq by apply or_defined.
    destruct (fetched env _ city _); simpl; intros H; injection H as <-; now split.
  - simpl. intros H. injection H as <-. now split.
Qed.

(** The answers to [initialize], [tools/list] and [prompts/list] likewise. *)
Lemma static_answer_shape env req w :
  In (MCPRequest.method req) ["initialize"; "tools/list"; "prompts/list"] ->
  exists answer,
    handleRequest env req w = (Fulfilled answer, w)
    /\ MCPResponse.id answer = MCPRequest.id req
    /\ exactly_one_payload answer = true.
Proof.
  intros [H|[H|[H|[]]]]; unfold handleRequest; run; rewrite <- H; simpl;
    eexists; repeat split.
Qed.

(** ** Checks of the primitives on concrete values *)

Example toString_22 : JsNumber.toString (JsNumber.of_Z 22) = "22".
Proof. reflexivity. Qed.

Example toString_5_2 : JsNumber.toString (mkNumber 52 1) = "5.2".
Proof. reflexivity. Qed.

Example toString_visibility :
  JsNumber.toString (JsNumber.div1000 (JsNumber.of_Z 10000)) = "10".
Proof. reflexivity. Qed.

Example toString_small : JsNumber.toString (mkNumber (-905) 4) = "-0.0905".
Proof. reflexivity. Qed.

Example round_half : JsNumber.round (mkNumber (-25) 1) = JsNumber.of_Z (-2).
Proof. reflexivity. Qed.

Example split_cities :
  map JsString.trim (JsString.split "," "London, Paris ,Rome") = ["London"; "Paris"; "Rome"].
Proof. reflexivity. Qed.

Example split_lone_comma : JsString.split "," "," = [EmptyString; EmptyString].
Proof. reflexivity. Qed.

Example mock_city_case :
  WeatherTypes.city (mockRecord "new YORK" (JStr "imperial") "t") = "New york".
Proof. reflexivity. Qed.

(** One blank entry among the cities: three fetches, no answer. *)
Example travel_advice_blank_entry :
  handleRequest demoEnv
    (request 3 "prompts/get" (named "travel-weather-advice" (JObj [("cities", JStr "A, ,C")]))) []
  = (Rejected (BadRequestException "City name is required"), fetchEvents ["A"; EmptyString; "C"]).
Proof. reflexivity. Qed.

(** Units that cannot be printed fail the fetch before the city is looked at. *)
Example unprintable_units :
  fetched demoEnv 0 (JStr "London") (JObj [("toString", JNull)])
  = Rejected (TypeError "Cannot convert object to primitive value").
Proof. reflexivity. Qed.

(** * Further properties *)

(** ** Reading properties *)

Lemma get_present v key :
  present v = true -> JsValue.get v key = Return (member v key).
Proof. destruct v; simpl; intros H; try discriminate H; reflexivity. Qed.

Lemma get_absent v key :
  present v = false -> exists e, JsValue.get v key = Throw e.
Proof. destruct v; simpl; intros H; try discriminate H; eexists; reflexivity. Qed.

Lemma get_returns_present v key x :
  JsValue.get v key = Return x -> present v = true.
Proof. destruct v; simpl; intros H; try discriminate H; reflexivity. Qed.

Lemma destructurable_present what first v :
  present v = true -> JsValue.destructurable what first v = Return tt.
Proof. destruct v; simpl; intros H; try discriminate H; reflexivity. Qed.

(** ** The router, method by method *)



(** X2. A [tools/call] whose [params] is present is always answered: the
    promise is fulfilled with an envelope that carries the id of the request
    and exactly one of result and error, and at most one fetch is started. *)
Theorem tools_call_always_answers env req w :
  MCPRequest.method req = "tools/call" ->
  present (MCPRequest.params req) = true ->
  exists answer events,
    handleRequest env req w = (Fulfilled answer, (w ++ events)%list)
    /\ MCPResponse.id answer = MCPRequest.id req
    /\ exactly_one_payload answer = true
    /\ (Datatypes.length events <= 1)%nat.
Proof.
  intros Hmethod Hp.
  rewrite (handleRequest_tools_call env req w Hmethod).
  unfold handleToolsCall. run.
  rewrite (destructurable_present _ _ _ Hp), !(get_present _ _ Hp).
  destruct (JsValue.is_string _ "get-weather").
  - destruct (JsValue.get (member (MCPRequest.params req) "arguments") "city") as [city|e].
    + destruct (JsValue.get (member (MCPRequest.params req) "arguments") "units")
        as [units|e].
      * rewrite getWeatherByCity_eq by apply or_defined.
        destruct (fetched env _ city _); eexists; eexists [_];
          (split; [reflexivity|]); simpl; auto.
      * eexists; exists []; rewrite app_nil_r; (split; [reflexivity|]); simpl; auto.
    + eexists; exists []; rewrite app_nil_r; (split; [reflexivity|]); simpl; auto.
  - eexists; exists []; rewrite app_nil_r; (split; [reflexivity|]); simpl; auto.
Qed.

Lemma tools_call_always_answers_witness :
  exists answer events,
    handleRequest liveEnv
      (request 2 "tools/call" (named "get-weather" (JObj [("city", JNum (JsNumber.of_Z 5))]))) []
    = (Fulfilled answer, ([] ++ events)%list)
    /\ MCPResponse.id answer = JNum (JsNumber.of_Z 2)
    /\ exactly_one_payload answer = true
    /\ (Datatypes.length events <= 1)%nat.
Proof.
  apply (tools_call_always_answers liveEnv
           (request 2 "tools/call" (named "get-weather" (JObj [("city", JNum (JsNumber.of_Z 5))])))
           []); reflexivity.
Defined.

(** ** The weather client, case by case *)

Lemma fetch_success env k city units weather :
  fetched env k city units = Fulfilled weather ->
  (exists s, city = JStr s /\ JsString.trim s <> EmptyString)
  /\ (exists text, JsValue.toString units = Return text)
  /\ WeatherTypes.units weather = units
  /\ WeatherTypes.timestamp weather = new_Date env k.
Proof.
  unfold fetched, getWeatherByCity_body, fetchFailed. run.
  destruct (JsValue.toString city) as [ct|]; [|discriminate].
  destruct (JsValue.toString units) as [ut|]; [|discriminate].
  destruct (cityIsMissing city) as [[|]|] eqn:Hmiss; try discriminate.
  assert (Hcity : exists s, city = JStr s /\ JsString.trim s <> EmptyString).
  { unfold cityIsMissing in Hmiss.
    destruct city; simpl in Hmiss; try discriminate Hmiss.
    - destruct b; discriminate Hmiss.
    - destruct (JsNumber.is_zero n); discriminate Hmiss.
    - eexists. split; [reflexivity|]. intros Hblank.
      destruct (String.eqb s EmptyString); simpl in Hmiss; [discriminate|].
      rewrite Hblank in Hmiss. discriminate Hmiss. }
  destruct Hcity as [s [-> Hs]].
  intros H. split; [eauto|]. split; [eauto|]. revert H.
  destruct (String.eqb (apiKey env) "demo-key").
  - simpl. intros H. injection H as <-. split; reflexivity.
  - destruct (axios_get env k (JStr s) (apiKey env) units) as [data|err].
    + destruct (transformWeatherData env k data units) as [made|err] eqn:Hmade.
      * intros H. injection H as <-. unfold transformWeatherData in Hmade.
        destruct (WeatherTypes.sys data); [|discriminate Hmade].
        destruct (WeatherTypes.main data); [|discriminate Hmade].
        destruct (WeatherTypes.weather data); [discriminate Hmade|].
        destruct (WeatherTypes.wind data); [|discriminate Hmade].
        injection Hmade as <-. split; reflexivity.
      * destruct (status_is err 404); [discriminate|].
        destruct (status_is err 401); discriminate.
    + destruct (status_is err 404); [discriminate|].
      destruct (status_is err 401); discriminate.
Qed.




(** X4. A city that is missing ([undefined], [null], [false], zero, the
    empty string) or blank is refused with "City name is required" in every
    configuration, before the provider is asked. *)
Theorem missing_city_refused env k city units text :
  JsValue.truthy city = false \/ (exists s, city = JStr s /\ JsString.trim s = EmptyString) ->
  JsValue.toString units = Return text ->
  fetched env k city units = Rejected (BadRequestException "City name is required").
Proof.
  intros Hcity Hunits.
  assert (Hprint : exists ct, JsValue.toString city = Return ct).
  { destruct Hcity as [Hf | [s [-> _]]]; [|simpl; eauto].
    destruct city; simpl in Hf; try discriminate Hf; simpl; eauto.
    destruct b; [discriminate Hf | eauto]. }
  assert (Hmiss : cityIsMissing city = Return true).
  { destruct Hcity as [Hf | [s [-> Hblank]]].
    - unfold cityIsMissing. now rewrite Hf.
    - now apply cityIsMissing_blank. }
  destruct Hprint as [ct Hct].
  unfold fetched, getWeatherByCity_body. run.
  rewrite Hct, Hunits, Hmiss. reflexivity.
Qed.

Lemma missing_city_refused_witness :
  fetched liveEnv 0 JNull (JStr "metric")
  = Rejected (BadRequestException "City name is required").
Proof.
  apply (missing_city_refused liveEnv 0 JNull (JStr "metric") "metric");
    [left; reflexivity | reflexivity].
Defined.

(** X5. The mock path is taken exactly when the configured key is absent,
    empty or the text "demo-key"; on it the provider is never asked: the
    fetch is the same whatever the provider would answer. *)
Theorem mock_path_selection env :
  (apiKey env = "demo-key"
   <-> OPENWEATHER_API_KEY env = None
       \/ OPENWEATHER_API_KEY env = Some EmptyString
       \/ OPENWEATHER_API_KEY env = Some "demo-key")
  /\ (apiKey env = "demo-key" ->
      forall provider k city units,
        fetched {| OPENWEATHER_API_KEY := OPENWEATHER_API_KEY env;
                   axios_get := provider;
                   new_Date := new_Date env |} k city units
        = fetched env k city units).
Proof.
  split.
  - unfold apiKey. destruct (OPENWEATHER_API_KEY env) as [key|].
    + destruct (String.eqb_spec key EmptyString) as [->|Hne].
      * split; auto.
      * split.
        -- intros ->. auto.
        -- intros [H|[H|H]]; try discriminate H; injection H as ->;
             [now elim Hne | reflexivity].
    + split; auto.
  - intros Hkey provider k city units.
    unfold fetched, getWeatherByCity_body. run.
    change (apiKey {| OPENWEATHER_API_KEY := OPENWEATHER_API_KEY env;
                      axios_get := provider; new_Date := new_Date env |})
      with (apiKey env).
    rewrite Hkey. simpl.
    destruct (JsValue.toString city); [|reflexivity].
    destruct (JsValue.toString units); [|reflexivity].
    destruct (cityIsMissing city) as [[|]|]; reflexivity.
Qed.

(** X6. With a credential, a named city and printable units, every failure
    of the provider call comes out as a [BadRequestException] with one of
    three messages: status 404 names the city as it was given, status 401
    blames the key, and anything else -- another status, no response at
    all, or an answer that lacks [sys], [main], [wind] or a first weather
    entry -- is "Failed to fetch weather data". *)
Theorem provider_failures env k s units text :
  apiKey env <> "demo-key" ->
  JsString.trim s <> EmptyString ->
  JsValue.toString units = Return text ->
  let reply := axios_get env k (JStr s) (apiKey env) units in
  (forall err, reply = Rejected err -> status_is err 404 = true ->
     fetched env k (JStr s) units
     = Rejected (BadRequestException ("City " ++ quote ++ s ++ quote ++ " not found")))
  /\ (forall err, reply = Rejected err -> status_is err 404 = false ->
      status_is err 401 = true ->
      fetched env k (JStr s) units = Rejected (BadRequestException "Invalid API key"))
  /\ (forall err, reply = Rejected err -> status_is err 404 = false ->
      status_is err 401 = false ->
      fetched env k (JStr s) units
      = Rejected (BadRequestException "Failed to fetch weather data"))
  /\ (forall data, reply = Fulfilled data ->
      WeatherTypes.sys data = None \/ WeatherTypes.main data = None
      \/ WeatherTypes.weather data = [] \/ WeatherTypes.wind data = None ->
      fetched env k (JStr s) units
      = Rejected (BadRequestException "Failed to fetch weather data")).
Proof.
  intros Hkey Hname Hunits reply.
  assert (Hlive : String.eqb (apiKey env) "demo-key" = false)
    by (destruct (String.eqb_spec (apiKey env) "demo-key"); [contradiction | reflexivity]).
  assert (Hrun : fetched env k (JStr s) units
                 = fst (async (try_catch
                                 (data <- await reply ;;
                                  weather <- lift (transformWeatherData env k data units) ;;
                                  ret (Value weather))
                                 (fetchFailed (JStr s))) [])).
  { unfold fetched, getWeatherByCity_body. unfold async, bind at 1 2 3, lift at 1 2 3.
    simpl JsValue.toString. cbv iota beta.
    rewrite Hunits, (cityIsMissing_named s Hname). cbv iota beta.
    rewrite Hlive. reflexivity. }
  rewrite Hrun. unfold fetchFailed. run.
  repeat split.
  - intros err -> H404. now rewrite H404.
  - intros err -> H404 H401. now rewrite H404, H401.
  - intros err -> H404 H401. now rewrite H404, H401.
  - intros data -> Hlacks. unfold transformWeatherData.
    destruct (WeatherTypes.sys data); [|reflexivity].
    destruct (WeatherTypes.main data); [|reflexivity].
    destruct (WeatherTypes.weather data); [reflexivity|].
    destruct (WeatherTypes.wind data); [|reflexivity].
    destruct Hlacks as [H|[H|[H|H]]]; discriminate H.
Qed.

Lemma provider_failures_witness :
  fetched liveEnv 0 (JStr " Atlantis") (JStr "metric")
  = Rejected (BadRequestException ("City " ++ quote ++ " Atlantis" ++ quote ++ " not found")).
Proof.
  destruct (provider_failures liveEnv 0 " Atlantis" (JStr "metric") "metric")
    as [H404 _]; [discriminate | discriminate | reflexivity |].
  apply (H404 (AxiosError (Some 404) "Request failed with status code 404"));
    reflexivity.
Defined.

(** X7. With a credential, when the provider's answer has its [sys],
    [main] and [wind] and at least one weather entry, the fetch succeeds
    and the record names the provider's city and country (not the city
    asked for), describes the first weather entry, and keeps the units
    asked for. *)
Theorem provider_answer env k s units text data sys main first others wind :
  apiKey env <> "demo-key" ->
  JsString.trim s <> EmptyString ->
  JsValue.toString units = Return text ->
  axios_get env k (JStr s) (apiKey env) units = Fulfilled data ->
  WeatherTypes.sys data = Some sys ->
  WeatherTypes.main data = Some main ->
  WeatherTypes.weather data = first :: others ->
  WeatherTypes.wind data = Some wind ->
  exists weather,
    fetched env k (JStr s) units = Fulfilled weather
    /\ WeatherTypes.city weather = WeatherTypes.name data
    /\ WeatherTypes.country weather = WeatherTypes.sys_country sys
    /\ WeatherTypes.description weather = WeatherTypes.condition_description first
    /\ WeatherTypes.units weather = units.
Proof.
  intros Hkey Hname Hunits Hreply Hsys Hmain Hfirst Hwind.
  assert (Hlive : String.eqb (apiKey env) "demo-key" = false)
    by (destruct (String.eqb_spec (apiKey env) "demo-key"); [contradiction | reflexivity]).
  unfold fetched, getWeatherByCity_body. run. simpl JsValue.toString. cbv iota beta.
  rewrite Hunits, (cityIsMissing_named s Hname), Hlive, Hreply.
  unfold transformWeatherData. rewrite Hsys, Hmain, Hfirst, Hwind.
  eexists. split; [reflexivity|]. repeat split.
Qed.

Lemma provider_answer_witness :
  exists weather,
    fetched servedEnv 0 (JStr "paris") (JStr "metric") = Fulfilled weather
    /\ WeatherTypes.city weather = "Paris"
    /\ WeatherTypes.country weather = "FR"
    /\ WeatherTypes.description weather = "light rain"
    /\ WeatherTypes.units weather = JStr "metric".
Proof.
  apply (provider_answer servedEnv 0 "paris" (JStr "metric") "metric" sampleData
           {| WeatherTypes.sys_country := "FR" |}
           {| WeatherTypes.temp := mkNumber 185 1;
              WeatherTypes.feels_like := mkNumber 1749 2;
              WeatherTypes.main_humidity := JsNumber.of_Z 70;
              WeatherTypes.main_pressure := JsNumber.of_Z 1009 |}
           {| WeatherTypes.condition_description := "light rain" |} []
           {| WeatherTypes.speed := mkNumber 31 1; WeatherTypes.deg := JsNumber.of_Z 240 |});
    try reflexivity; discriminate.
Defined.







(** ** The prompt generators in closed form *)

Lemma handlePromptsGet_eq env req w name args :
  JsValue.get (MCPRequest.params req) "name" = Return name ->
  JsValue.get (MCPRequest.params req) "arguments" = Return args ->
  handlePromptsGet env req w
  = if JsValue.is_string name "weather-report" then
      generateWeatherReportPrompt env args w
    else if JsValue.is_string name "travel-weather-advice" then
      generateTravelWeatherAdvicePrompt env args w
    else if JsValue.is_string name "weather-comparison" then
      generateWeatherComparisonPrompt env args w
    else
      (Fulfilled (createErrorResponse (MCPRequest.id req) (-32602) "Unknown prompt"), w).
Proof.
  intros Hname Hargs.
  pose proof (get_returns_present _ _ _ Hname) as Hp.
  unfold handlePromptsGet. run.
  rewrite (destructurable_present _ _ _ Hp), Hname, Hargs.
  destruct (JsValue.is_string name "weather-report");
    [destruct (generateWeatherReportPrompt env args w); reflexivity|].
  destruct (JsValue.is_string name "travel-weather-advice");
    [destruct (generateTravelWeatherAdvicePrompt env args w); reflexivity|].
  destruct (JsValue.is_string name "weather-comparison");
    [destruct (generateWeatherComparisonPrompt env args w); reflexivity|].
  reflexivity.
Qed.

Lemma generateWeatherReportPrompt_eq env args w :
  present args = true ->
  generateWeatherReportPrompt env args w
  = (match fetched env (Datatypes.length w) (reportCity args) (reportUnits args) with
     | Fulfilled weather =>
         match JsValue.toString (reportCity args) with
         | Return cityText =>
             Fulfilled (promptResult ("Comprehensive weather report for " ++ cityText)
                          (weatherReportText (formatWeatherForDisplay weather)))
         | Throw e => Rejected e
         end
     | Rejected e => Rejected e
     end,
     (w ++ [FetchWeather (reportCity args) (reportUnits args)])%list).
Proof.
  intros Hp. unfold generateWeatherReportPrompt. run.
  rewrite !(get_present _ _ Hp).
  fold (reportCity args). fold (reportUnits args).
  rewrite getWeatherByCity_eq by apply or_defined.
  destruct (fetched env _ _ _); [|reflexivity].
  destruct (JsValue.toString (reportCity args)); reflexivity.
Qed.

Lemma generateWeatherComparisonPrompt_eq env args w :
  present args = true ->
  let k := Datatypes.length w in
  generateWeatherComparisonPrompt env args w
  = (match Promise_all2 (fetched env k (comparisonCity1 args) (JStr "metric"))
                        (fetched env (S k) (comparisonCity2 args) (JStr "metric")) with
     | Fulfilled both =>
         match JsValue.toString (comparisonCity1 args),
               JsValue.toString (comparisonCity2 args) with
         | Return city1Text, Return city2Text =>
             Fulfilled (promptResult
                          ("Weather comparison between " ++ city1Text ++ " and " ++ city2Text)
                          (weatherComparisonText
                             city1Text (formatWeatherForDisplay (fst both))
                             city2Text (formatWeatherForDisplay (snd both))))
         | Throw e, _ => Rejected e
         | Return _, Throw e => Rejected e
         end
     | Rejected e => Rejected e
     end,
     (w ++ [FetchWeather (comparisonCity1 args) (JStr "metric");
            FetchWeather (comparisonCity2 args) (JStr "metric")])%list).
Proof.
  intros Hp k. unfold generateWeatherComparisonPrompt. run.
  rewrite !(get_present _ _ Hp).
  fold (comparisonCity1 args). fold (comparisonCity2 args).
  rewrite !getWeatherByCity_eq, length_app, <- app_assoc by discriminate. simpl.
  replace (Datatypes.length w + 1)%nat with (S k) by (unfold k; lia). fold k.
  destruct (Promise_all2 _ _); [|reflexivity].
  destruct (JsValue.toString (comparisonCity1 args)); [|reflexivity].
  destruct (JsValue.toString (comparisonCity2 args)); reflexivity.
Qed.

(** Arguments that cannot be read reject every generator at once. *)
Lemma generators_need_arguments env args w :
  present args = false ->
  (exists e, generateWeatherReportPrompt env args w = (Rejected e, w))
  /\ (exists e, generateTravelWeatherAdvicePrompt env args w = (Rejected e, w))
  /\ (exists e, generateWeatherComparisonPrompt env args w = (Rejected e, w)).
Proof.
  intros Habsent.
  unfold generateWeatherReportPrompt, generateTravelWeatherAdvicePrompt,
    generateWeatherComparisonPrompt. run.
  destruct (get_absent args "city" Habsent) as [e1 ->].
  destruct (get_absent args "cities" Habsent) as [e2 ->].
  destruct (get_absent args "city1" Habsent) as [e3 ->].
  repeat split; eexists; reflexivity.
Qed.

Lemma generateTravelWeatherAdvicePrompt_not_text env args w :
  present args = true ->
  (forall s, JsValue.or (member args "cities") (JStr "London,Paris") <> JStr s) ->
  exists e, generateTravelWeatherAdvicePrompt env args w = (Rejected e, w).
Proof.
  intros Hp Hnot. unfold generateTravelWeatherAdvicePrompt. run.
  rewrite (get_present _ "cities" Hp). unfold split_commas.
  destruct (JsValue.or (member args "cities") (JStr "London,Paris")) eqn:Hor;
    try (eexists; reflexivity).
  now elim (Hnot s).
Qed.



(** X12. A [prompts/get] of weather-comparison with readable arguments
    always starts both fetches, in metric units, for the two cities given
    (London and Paris where missing), also when the first one fails; when
    either fails the request is rejected. *)
Theorem weather_comparison_fetches env req w args :
  MCPRequest.method req = "prompts/get" ->
  JsValue.get (MCPRequest.params req) "name" = Return (JStr "weather-comparison") ->
  JsValue.get (MCPRequest.params req) "arguments" = Return args ->
  present args = true ->
  let k := Datatypes.length w in
  let fetch1 := fetched env k (comparisonCity1 args) (JStr "metric") in
  let fetch2 := fetched env (S k) (comparisonCity2 args) (JStr "metric") in
  snd (handleRequest env req w)
  = (w ++ [FetchWeather (comparisonCity1 args) (JStr "metric");
           FetchWeather (comparisonCity2 args) (JStr "metric")])%list
  /\ ((exists e, fetch1 = Rejected e \/ fetch2 = Rejected e) ->
      exists e, fst (handleRequest env req w) = Rejected e).
Proof.
  intros Hmethod Hname Hargs Hp k fetch1 fetch2.
  rewrite (handleRequest_prompts_get env req w Hmethod).
  rewrite (handlePromptsGet_eq env req w _ _ Hname Hargs). simpl.
  pose proof (generateWeatherComparisonPrompt_eq env args w Hp) as Hgen.
  cbv zeta in Hgen. rewrite Hgen. fold k. fold fetch1. fold fetch2. simpl.
  split; [reflexivity|].
  intros [e [H|H]]; rewrite H.
  - eexists. reflexivity.
  - destruct fetch1; eexists; reflexivity.
Qed.

Lemma weather_comparison_fetches_witness :
  let req := request 8 "prompts/get"
               (named "weather-comparison" (JObj [("city1", JStr "  ")])) in
  snd (handleRequest demoEnv req [])
  = [FetchWeather (JStr "  ") (JStr "metric"); FetchWeather (JStr "Paris") (JStr "metric")]
  /\ exists e, fst (handleRequest demoEnv req []) = Rejected e.
Proof.
  intros req.
  destruct (weather_comparison_fetches demoEnv req [] (JObj [("city1", JStr "  ")])
              eq_refl eq_refl eq_refl eq_refl) as [Hworld Hfail].
  split; [exact Hworld|]. apply Hfail.
  exists (BadRequestException "City name is required"). left. reflexivity.
Defined.

Lemma split_length s :
  Datatypes.length (JsString.split "," s) = S (commas s).
Proof.
  induction s as [|c r IH]; simpl; [reflexivity|].
  destruct (Ascii.eqb c ","); simpl; [now rewrite IH|].
  destruct (JsString.split "," r); simpl in *; [discriminate IH | exact IH].
Qed.

Lemma missing_city_refused_aux env k s :
  JsString.trim s = EmptyString ->
  fetched env k (JStr s) (JStr "metric")
  = Rejected (BadRequestException "City name is required").
Proof.
  intros Hblank.
  destruct (fetched_blank env k s (JStr "metric") Hblank) as [e [-> He]].
  now rewrite (He "metric" eq_refl).
Qed.

Lemma fetchedEach_blank env k cities :
  (exists c, In c cities /\ JsString.trim c = EmptyString) ->
  exists e, In (Rejected e) (fetchedEach env k cities).
Proof.
  revert k. induction cities as [|c rest IH]; intros k [b [Hin Hblank]];
    simpl in *; [contradiction|].
  destruct Hin as [->|Hin].
  - exists (BadRequestException "City name is required"). left.
    apply (missing_city_refused_aux env k b).
    exact Hblank.
  - destruct (IH (S k) (ex_intro _ b (conj Hin Hblank))) as [e He]. eauto.
Qed.

(** X13. A [prompts/get] of travel-weather-advice starts one fetch more
    than the text of cities has commas, so at least one.  A blank entry --
    two commas in a row, a comma at either end -- makes the whole request
    fail in every configuration. *)
Theorem travel_advice_entries env req w args s :
  MCPRequest.method req = "prompts/get" ->
  JsValue.get (MCPRequest.params req) "name" = Return (JStr "travel-weather-advice") ->
  JsValue.get (MCPRequest.params req) "arguments" = Return args ->
  present args = true ->
  JsValue.or (member args "cities") (JStr "London,Paris") = JStr s ->
  (exists events,
      snd (handleRequest env req w) = (w ++ events)%list
      /\ Datatypes.length events = S (commas s))
  /\ ((exists entry, In entry (JsString.split "," s) /\ JsString.trim entry = EmptyString) ->
      exists e, fst (handleRequest env req w) = Rejected e).
Proof.
  intros Hmethod Hname Hargs Hp Hs.
  rewrite (handleRequest_prompts_get env req w Hmethod).
  rewrite (handlePromptsGet_eq env req w _ _ Hname Hargs). simpl.
  pose proof (generateTravelWeatherAdvicePrompt_eq env args _ _ s w
                (get_present args "cities" Hp) (get_present args "travel_date" Hp) Hs)
    as Hgen.
  cbv zeta in Hgen. rewrite Hgen. simpl. split.
  - eexists. split; [reflexivity|].
    unfold fetchEvents. now rewrite !length_map, split_length.
  - intros [entry [Hin Hblank]].
    destruct (Promise_all_rejected
                (fetchedEach env (Datatypes.length w)
                   (map JsString.trim (JsString.split "," s)))) as [e ->].
    + apply fetchedEach_blank. exists (JsString.trim entry). split.
      * now apply in_map.
      * rewrite Hblank. reflexivity.
    + eauto.
Qed.

Lemma travel_advice_entries_witness :
  let req := request 8 "prompts/get"
               (named "travel-weather-advice" (JObj [("cities", JStr "Rome,Oslo,")])) in
  (exists events,
      snd (handleRequest servedEnv req []) = ([] ++ events)%list
      /\ Datatypes.length events = 3%nat)
  /\ exists e, fst (handleRequest servedEnv req []) = Rejected e.
Proof.
  intros req.
  destruct (travel_advice_entries servedEnv req [] (JObj [("cities", JStr "Rome,Oslo,")])
              "Rome,Oslo," eq_refl eq_refl eq_refl eq_refl eq_refl) as [Hcount Hfail].
  split; [exact Hcount|]. apply Hfail.
  exists EmptyString. split; [simpl; auto | reflexivity].
Defined.

(** X14. The cities of travel-weather-advice must be a text: given as
    anything else that is not empty -- a JSON array of names, a number, an
    object -- the request is rejected before any fetch is started. *)
Theorem travel_advice_cities_not_text env req w args :
  MCPRequest.method req = "prompts/get" ->
  JsValue.get (MCPRequest.params req) "name" = Return (JStr "travel-weather-advice") ->
  JsValue.get (MCPRequest.params req) "arguments" = Return args ->
  present args = true ->
  JsValue.truthy (member args "cities") = true ->
  (forall s, member args "cities" <> JStr s) ->
  exists e, handleRequest env req w = (Rejected e, w).
Proof.
  intros Hmethod Hname Hargs Hp Htruthy Hnot.
  rewrite (handleRequest_prompts_get env req w Hmethod).
  rewrite (handlePromptsGet_eq env req w _ _ Hname Hargs). simpl.
  apply generateTravelWeatherAdvicePrompt_not_text; [exact Hp|].
  unfold JsValue.or. rewrite Htruthy. exact Hnot.
Qed.

Lemma travel_advice_cities_not_text_witness :
  exists e,
    handleRequest demoEnv
      (request 8 "prompts/get"
         (named "travel-weather-advice"
            (JObj [("cities", JArr [JStr "Rome"; JStr "Oslo"])]))) []
    = (Rejected e, []).
Proof.
  apply (travel_advice_cities_not_text demoEnv
           (request 8 "prompts/get"
              (named "travel-weather-advice"
                 (JObj [("cities", JArr [JStr "Rome"; JStr "Oslo"])]))) []
           (JObj [("cities", JArr [JStr "Rome"; JStr "Oslo"])]));
    try reflexivity.
  intros s. discriminate.
Defined.

(** ** The two weather clients *)

Lemma clients_agree env k city units cityText unitsText :
  JsValue.toString city = Return cityText ->
  JsValue.toString units = Return unitsText ->
  same_outcome (fetched env k city units) (McpStdioCompiled.fetched env k city units).
Proof.
  intros Hcity Hunits.
  unfold fetched, McpStdioCompiled.fetched, getWeatherByCity_body,
    McpStdioCompiled.getWeatherByCity_body, fetchFailed, McpStdioCompiled.fetchFailed.
  run. rewrite Hcity, Hunits.
  change (McpStdioCompiled.apiKey env) with (apiKey env).
  destruct (cityIsMissing city) as [[|]|]; simpl; try reflexivity.
  destruct (String.eqb (apiKey env) "demo-key").
  - destruct (getMockWeatherData env k city units); simpl; reflexivity.
  - destruct (axios_get env k city (apiKey env) units) as [data|err].
    + destruct (transformWeatherData env k data units) as [weather|err];
        simpl; [reflexivity|].
      destruct (status_is err 404); [reflexivity|].
      destruct (status_is err 401); reflexivity.
    + destruct (status_is err 404); [reflexivity|].
      destruct (status_is err 401); reflexivity.
Qed.

Lemma compiled_fetch_success env k city units weather :
  fetched env k city units = Fulfilled weather ->
  McpStdioCompiled.fetched env k city units = Fulfilled weather.
Proof.
  intros Hok.
  destruct (fetch_success env k city units weather Hok) as [[s [-> _]] [[ut Hut] _]].
  pose proof (clients_agree env k (JStr s) units s ut eq_refl Hut) as Hsame.
  rewrite Hok in Hsame. unfold same_outcome in Hsame.
  destruct (McpStdioCompiled.fetched env k (JStr s) units); [now subst | contradiction].
Qed.

(** X15. The weather client of the compiled stdio server and the one of
    the HTTP server settle alike whenever city and units can be printed:
    with the same record, or with errors of the same message (a plain
    [Error] there, a [BadRequestException] here). *)
Theorem weather_clients_agree env k city units cityText unitsText :
  JsValue.toString city = Return cityText ->
  JsValue.toString units = Return unitsText ->
  same_outcome (fetched env k city units) (McpStdioCompiled.fetched env k city units).
Proof. apply clients_agree. Qed.

Lemma weather_clients_agree_witness :
  same_outcome (fetched liveEnv 2 (JStr "Atlantis") (JStr "metric"))
               (McpStdioCompiled.fetched liveEnv 2 (JStr "Atlantis") (JStr "metric")).
Proof.
  apply (weather_clients_agree liveEnv 2 (JStr "Atlantis") (JStr "metric")
           "Atlantis" "metric"); reflexivity.
Defined.

(** ** The compiled stdio server *)

Lemma compiled_body_world env k city units w :
  McpStdioCompiled.getWeatherByCity_body env k city units w
  = (fst (McpStdioCompiled.getWeatherByCity_body env k city units []), w).
Proof.
  unfold McpStdioCompiled.getWeatherByCity_body, McpStdioCompiled.fetchFailed. run.
  destruct (cityIsMissing city) as [[|]|]; try reflexivity.
  destruct (String.eqb (McpStdioCompiled.apiKey env) "demo-key").
  - destruct (getMockWeatherData env k city units); reflexivity.
  - destruct (axios_get env k city (McpStdioCompiled.apiKey env) units) as [data|err].
    + destruct (transformWeatherData env k data units) as [d|err]; [reflexivity|].
      destruct (status_is err 404); [destruct (JsValue.toString city); reflexivity|].
      destruct (status_is err 401); reflexivity.
    + destruct (status_is err 404); [destruct (JsValue.toString city); reflexivity|].
      destruct (status_is err 401); reflexivity.
Qed.

Lemma compiled_getWeatherByCity_eq env city units w :
  units <> JUndefined ->
  McpStdioCompiled.getWeatherByCity env city units w
  = (McpStdioCompiled.fetched env (Datatypes.length w) city units,
     (w ++ [FetchWeather city units])%list).
Proof.
  intros Hunits. unfold McpStdioCompiled.getWeatherByCity, McpStdioCompiled.fetched, async.
  replace (JsValue.parameter_default units (JStr "metric")) with units
    by (destruct units; try reflexivity; now elim Hunits).
  cbv zeta. rewrite compiled_body_world.
  destruct (McpStdioCompiled.getWeatherByCity_body env (Datatypes.length w) city units [])
    as [[[a|p]|e] w0]; reflexivity.
Qed.

Lemma compiled_mapJs_fetches env (f : string -> Js (Promise WeatherData)) cities w :
  (forall city w0,
      f city w0
      = (Return (McpStdioCompiled.fetched env (Datatypes.length w0) (JStr city) (JStr "metric")),
         (w0 ++ [FetchWeather (JStr city) (JStr "metric")])%list)) ->
  mapJs f cities w
  = (Return (McpStdioCompiled.fetchedEach env (Datatypes.length w) cities),
     (w ++ fetchEvents cities)%list).
Proof.
  intros Hf. revert w. induction cities as [|city rest IH]; intros w; simpl.
  - unfold ret. now rewrite app_nil_r.
  - unfold bind at 1. rewrite Hf.
    unfold bind at 1. rewrite IH, length_app, <- app_assoc. simpl.
    now replace (Datatypes.length w + 1)%nat with (S (Datatypes.length w)) by lia.
Qed.

Lemma compiled_getPromptHandler_eq env req w name args :
  JsValue.get (MCPRequest.params req) "name" = Return name ->
  JsValue.get (MCPRequest.params req) "arguments" = Return args ->
  McpStdioCompiled.getPromptHandler env req w
  = if JsValue.is_string name "weather-report" then
      McpStdioCompiled.generateWeatherReportPrompt env (JsValue.or args (JObj [])) w
    else if JsValue.is_string name "travel-weather-advice" then
      McpStdioCompiled.generateTravelWeatherAdvicePrompt env (JsValue.or args (JObj [])) w
    else if JsValue.is_string name "weather-comparison" then
      McpStdioCompiled.generateWeatherComparisonPrompt env (JsValue.or args (JObj [])) w
    else
      match JsValue.toString name with
      | Return nameText => (Rejected (Error ("Unknown prompt: " ++ nameText)), w)
      | Throw e => (Rejected e, w)
      end.
Proof.
  intros Hname Hargs.
  pose proof (get_returns_present _ _ _ Hname) as Hp.
  unfold McpStdioCompiled.getPromptHandler. run.
  rewrite (destructurable_present _ _ _ Hp), Hname, Hargs.
  destruct (JsValue.is_string name "weather-report");
    [destruct (McpStdioCompiled.generateWeatherReportPrompt env _ w); reflexivity|].
  destruct (JsValue.is_string name "travel-weather-advice");
    [destruct (McpStdioCompiled.generateTravelWeatherAdvicePrompt env _ w); reflexivity|].
  destruct (JsValue.is_string name "weather-comparison");
    [destruct (McpStdioCompiled.generateWeatherComparisonPrompt env _ w); reflexivity|].
  destruct (JsValue.toString name); reflexivity.
Qed.

Lemma compiled_report_eq env args w :
  present args = true ->
  McpStdioCompiled.generateWeatherReportPrompt env args w
  = (match McpStdioCompiled.fetched env (Datatypes.length w)
             (reportCity args) (reportUnits args) with
     | Fulfilled weather =>
         match JsValue.toString (reportCity args) with
         | Return cityText =>
             Fulfilled (McpStdioCompiled.prompt
                          ("Comprehensive weather report for " ++ cityText)
                          (weatherReportText (formatWeatherForDisplay weather)))
         | Throw e => Rejected e
         end
     | Rejected e => Rejected e
     end,
     (w ++ [FetchWeather (reportCity args) (reportUnits args)])%list).
Proof.
  intros Hp. unfold McpStdioCompiled.generateWeatherReportPrompt. run.
  rewrite !(get_present _ _ Hp).
  fold (reportCity args). fold (reportUnits args).
  rewrite compiled_getWeatherByCity_eq by apply or_defined.
  destruct (McpStdioCompiled.fetched env _ _ _); [|reflexivity].
  destruct (JsValue.toString (reportCity args)); reflexivity.
Qed.

Lemma compiled_comparison_eq env args w :
  present args = true ->
  let k := Datatypes.length w in
  McpStdioCompiled.generateWeatherComparisonPrompt env args w
  = (match Promise_all2
             (McpStdioCompiled.fetched env k (comparisonCity1 args) (JStr "metric"))
             (McpStdioCompiled.fetched env (S k) (comparisonCity2 args) (JStr "metric")) with
     | Fulfilled both =>
         match JsValue.toString (comparisonCity1 args),
               JsValue.toString (comparisonCity2 args) with
         | Return city1Text, Return city2Text =>
             Fulfilled (McpStdioCompiled.prompt
                          ("Weather comparison between " ++ city1Text ++ " and " ++ city2Text)
                          (weatherComparisonText
                             city1Text (formatWeatherForDisplay (fst both))
                             city2Text (formatWeatherForDisplay (snd both))))
         | Throw e, _ => Rejected e
         | Return _, Throw e => Rejected e
         end
     | Rejected e => Rejected e
     end,
     (w ++ [FetchWeather (comparisonCity1 args) (JStr "metric");
            FetchWeather (comparisonCity2 args) (JStr "metric")])%list).
Proof.
  intros Hp k. unfold McpStdioCompiled.generateWeatherComparisonPrompt. run.
  rewrite !(get_present _ _ Hp).
  fold (comparisonCity1 args). fold (comparisonCity2 args).
  rewrite !compiled_getWeatherByCity_eq, length_app, <- app_assoc by discriminate. simpl.
  replace (Datatypes.length w + 1)%nat with (S k) by (unfold k; lia). fold k.
  destruct (Promise_all2 _ _); [|reflexivity].
  destruct (JsValue.toString (comparisonCity1 args)); [|reflexivity].
  destruct (JsValue.toString (comparisonCity2 args)); reflexivity.
Qed.

Lemma compiled_travel_eq env args s w :
  present args = true ->
  JsValue.or (member args "cities") (JStr "London,Paris") = JStr s ->
  let cities := map JsString.trim (JsString.split "," s) in
  McpStdioCompiled.generateTravelWeatherAdvicePrompt env args w
  = (match Promise_all (McpStdioCompiled.fetchedEach env (Datatypes.length w) cities) with
     | Fulfilled results =>
         match JsValue.toString (JsValue.or (member args "travel_date") (JStr "today")) with
         | Return dateText =>
             Fulfilled (McpStdioCompiled.prompt
                          ("Travel weather advice for " ++ JsString.join ", " cities)
                          (travelAdviceText dateText
                             (JsString.join (LF ++ LF)
                                (map formatWeatherForDisplay results))))
         | Throw e => Rejected e
         end
     | Rejected e => Rejected e
     end,
     (w ++ fetchEvents cities)%list).
Proof.
  intros Hp Hs cities.
  unfold McpStdioCompiled.generateTravelWeatherAdvicePrompt. run.
  rewrite !(get_present _ _ Hp), Hs. unfold split_commas.
  rewrite (compiled_mapJs_fetches env).
  - fold cities.
    destruct (Promise_all (McpStdioCompiled.fetchedEach env (Datatypes.length w) cities));
      [|reflexivity].
    destruct (JsValue.toString _); reflexivity.
  - intros city w0. now rewrite compiled_getWeatherByCity_eq by discriminate.
Qed.

Lemma or_empty_object args :
  present (JsValue.or args (JObj [])) = true
  /\ forall key, member (JsValue.or args (JObj [])) key = member args key.
Proof.
  unfold JsValue.or. destruct args; simpl; try (split; reflexivity).
  - destruct b; split; reflexivity.
  - destruct (JsNumber.is_zero n); split; reflexivity.
  - destruct (String.eqb s EmptyString); split; reflexivity.
Qed.

Lemma handlePromptsGet_absent env req w :
  present (MCPRequest.params req) = false ->
  exists e, handlePromptsGet env req w = (Rejected e, w).
Proof.
  intros Habsent. unfold handlePromptsGet. run.
  destruct (MCPRequest.params req); simpl in Habsent; try discriminate Habsent;
    eexists; reflexivity.
Qed.

Lemma Promise_all2_fulfilled {A} (p q : Promise A) both :
  Promise_all2 p q = Fulfilled both -> p = Fulfilled (fst both) /\ q = Fulfilled (snd both).
Proof.
  destruct p, q; simpl; intros H; try discriminate H. injection H as <-. now split.
Qed.

Lemma compiled_fetchedEach_success env k cities results :
  Promise_all (fetchedEach env k cities) = Fulfilled results ->
  Promise_all (McpStdioCompiled.fetchedEach env k cities) = Fulfilled results.
Proof.
  revert k results. induction cities as [|c rest IH]; intros k results; simpl;
    [trivial|].
  destruct (fetched env k (JStr c) (JStr "metric")) as [weather|] eqn:Hc; [|discriminate].
  rewrite (compiled_fetch_success env k _ _ weather Hc).
  destruct (Promise_all (fetchedEach env (S k) rest)) as [others|] eqn:Hrest; [|discriminate].
  now rewrite (IH (S k) others Hrest).
Qed.

(** What a fulfilled [prompts/get] can be: the unknown-prompt error, or a
    prompt result. *)
Lemma prompts_get_fulfilled env req w answer :
  fst (handlePromptsGet env req w) = Fulfilled answer ->
  answer = createErrorResponse (MCPRequest.id req) (-32602) "Unknown prompt"
  \/ exists description text, answer = promptResult description text.
Proof.
  destruct (present (MCPRequest.params req)) eqn:Hp;
    [|destruct (handlePromptsGet_absent env req w Hp) as [e ->]; discriminate].
  rewrite (handlePromptsGet_eq env req w _ _ (get_present _ "name" Hp)
             (get_present _ "arguments" Hp)).
  set (args := member (MCPRequest.params req) "arguments").
  destruct (present args) eqn:Hargs.
  - destruct (JsValue.is_string _ "weather-report").
    { rewrite (generateWeatherReportPrompt_eq env args w Hargs). simpl.
      destruct (fetched env _ _ _); [|discriminate].
      destruct (JsValue.toString _); [|discriminate].
      intros H. injection H as <-. right. eauto. }
    destruct (JsValue.is_string _ "travel-weather-advice").
    { destruct (JsValue.or (member args "cities") (JStr "London,Paris")) eqn:Hs;
        try (destruct (generateTravelWeatherAdvicePrompt_not_text env args w Hargs)
               as [e ->]; [intros s0; rewrite Hs; discriminate | discriminate]).
      pose proof (generateTravelWeatherAdvicePrompt_eq env args _ _ s w
                    (get_present args "cities" Hargs)
                    (get_present args "travel_date" Hargs) Hs) as Hgen.
      cbv zeta in Hgen. rewrite Hgen. simpl.
      destruct (Promise_all _); [|discriminate].
      destruct (JsValue.toString _); [|discriminate].
      intros H. injection H as <-. right. eauto. }
    destruct (JsValue.is_string _ "weather-comparison").
    { pose proof (generateWeatherComparisonPrompt_eq env args w Hargs) as Hgen.
      cbv zeta in Hgen. rewrite Hgen. simpl.
      destruct (Promise_all2 _ _); [|discriminate].
      destruct (JsValue.toString (comparisonCity1 args)); [|discriminate].
      destruct (JsValue.toString (comparisonCity2 args)); [|discriminate].
      intros H. injection H as <-. right. eauto. }
    simpl. intros H. injection H as <-. now left.
  - destruct (generators_need_arguments env args w Hargs)
      as [[e1 H1] [[e2 H2] [e3 H3]]].
    rewrite H1, H2, H3.
    destruct (JsValue.is_string _ "weather-report"); [discriminate|].
    destruct (JsValue.is_string _ "travel-weather-advice"); [discriminate|].
    destruct (JsValue.is_string _ "weather-comparison"); [discriminate|].
    simpl. intros H. injection H as <-. now left.
Qed.

(** X16. Every answer to a [prompts/get] holds exactly one of result and
    error.  An answer with a result always carries the id 1, whatever id
    the request had; an answer with an error is the error -32602 "Unknown
    prompt" and carries the id of the request. *)
Theorem prompts_get_answer_ids env req w answer :
  MCPRequest.method req = "prompts/get" ->
  fst (handleRequest env req w) = Fulfilled answer ->
  exactly_one_payload answer = true
  /\ (forall result, MCPResponse.result answer = Some result ->
      MCPResponse.id answer = JNum (JsNumber.of_Z 1))
  /\ (forall err, MCPResponse.error answer = Some err ->
      MCPResponse.id answer = MCPRequest.id req
      /\ err = MCPError.mk (-32602) "Unknown prompt").
Proof.
  intros Hmethod. rewrite (handleRequest_prompts_get env req w Hmethod). intros Hok.
  destruct (prompts_get_fulfilled env req w answer Hok) as [-> | [d [t ->]]]; simpl.
  - split; [reflexivity|]. split; [discriminate|].
    intros err H. injection H as <-. now split.
  - split; [reflexivity|]. split; [reflexivity | discriminate].
Qed.

Lemma prompts_get_answer_ids_witness :
  let req := request 7 "prompts/get" (named "weather-comparison" (JObj [])) in
  exists answer,
    fst (handleRequest demoEnv req []) = Fulfilled answer
    /\ exactly_one_payload answer = true
    /\ (forall result, MCPResponse.result answer = Some result ->
        MCPResponse.id answer = JNum (JsNumber.of_Z 1))
    /\ (forall err, MCPResponse.error answer = Some err ->
        MCPResponse.id answer = MCPRequest.id req
        /\ err = MCPError.mk (-32602) "Unknown prompt").
Proof.
  intros req. eexists. split; [reflexivity|].
  apply (prompts_get_answer_ids demoEnv req []); reflexivity.
Defined.

(** X17. Without arguments (absent or [null]) the three prompts are
    rejected by the HTTP router before any fetch, while the compiled stdio
    handler puts an empty object in their place and goes on with the
    defaults: one fetch for London on a weather-report, fetches for London
    and Paris on the two others. *)
Theorem prompts_without_arguments env req w name args :
  MCPRequest.method req = "prompts/get" ->
  JsValue.get (MCPRequest.params req) "name" = Return (JStr name) ->
  In name ["weather-report"; "travel-weather-advice"; "weather-comparison"] ->
  JsValue.get (MCPRequest.params req) "arguments" = Return args ->
  present args = false ->
  (exists e, handleRequest env req w = (Rejected e, w))
  /\ snd (McpStdioCompiled.getPromptHandler env req w)
     = (w ++ (if String.eqb name "weather-report"
              then fetchEvents ["London"]
              else fetchEvents ["London"; "Paris"]))%list.
Proof.
  intros Hmethod Hname Hin Hargs Habsent.
  assert (Hor : JsValue.or args (JObj []) = JObj [])
    by (destruct args; simpl in Habsent; try discriminate Habsent; reflexivity).
  destruct (generators_need_arguments env args w Habsent) as [[e1 H1] [[e2 H2] [e3 H3]]].
  rewrite (handleRequest_prompts_get env req w Hmethod).
  rewrite (handlePromptsGet_eq env req w _ _ Hname Hargs).
  rewrite (compiled_getPromptHandler_eq env req w _ _ Hname Hargs), Hor.
  pose proof (compiled_comparison_eq env (JObj []) w eq_refl) as Hcmp.
  pose proof (compiled_travel_eq env (JObj []) "London,Paris" w eq_refl eq_refl) as Htrv.
  cbv zeta in Hcmp, Htrv.
  destruct Hin as [<-|[<-|[<-|[]]]]; simpl.
  - split; [eauto|]. now rewrite (compiled_report_eq env (JObj []) w eq_refl).
  - split; [eauto|]. now rewrite Htrv.
  - split; [eauto|]. now rewrite Hcmp.
Qed.

Lemma prompts_without_arguments_witness :
  let req := request 7 "prompts/get" (JObj [("name", JStr "weather-report")]) in
  (exists e, handleRequest demoEnv req [] = (Rejected e, []))
  /\ snd (McpStdioCompiled.getPromptHandler demoEnv req [])
     = [FetchWeather (JStr "London") (JStr "metric")].
Proof.
  intros req.
  apply (prompts_without_arguments demoEnv req [] "weather-report" JUndefined);
    try reflexivity. simpl. auto.
Defined.

(** X18. Whatever prompt result the HTTP router delivers, the compiled
    stdio handler delivers for the same request, after the same fetches:
    its result is the router's [result] member, without the envelope. *)
Theorem compiled_prompts_follow_router env req w answer result :
  MCPRequest.method req = "prompts/get" ->
  fst (handleRequest env req w) = Fulfilled answer ->
  MCPResponse.result answer = Some result ->
  McpStdioCompiled.getPromptHandler env req w
  = (Fulfilled result, snd (handleRequest env req w)).
Proof.
  intros Hmethod. rewrite (handleRequest_prompts_get env req w Hmethod).
  destruct (present (MCPRequest.params req)) eqn:Hp;
    [|destruct (handlePromptsGet_absent env req w Hp) as [e ->]; discriminate].
  rewrite (handlePromptsGet_eq env req w _ _ (get_present _ "name" Hp)
             (get_present _ "arguments" Hp)).
  rewrite (compiled_getPromptHandler_eq env req w _ _ (get_present _ "name" Hp)
             (get_present _ "arguments" Hp)).
  set (args := member (MCPRequest.params req) "arguments").
  destruct (or_empty_object args) as [Hp' Hmember].
  destruct (present args) eqn:Hargs.
  - destruct (JsValue.is_string _ "weather-report").
    { rewrite (generateWeatherReportPrompt_eq env args w Hargs).
      rewrite (compiled_report_eq env _ w Hp').
      unfold reportCity, reportUnits. rewrite !Hmember. simpl.
      destruct (fetched env _ _ _) as [weather|] eqn:Hok; [|discriminate].
      rewrite (compiled_fetch_success env _ _ _ weather Hok).
      destruct (JsValue.toString _); [|discriminate].
      intros H Hres. injection H as <-. simpl in Hres. injection Hres as <-. reflexivity. }
    destruct (JsValue.is_string _ "travel-weather-advice").
    { destruct (JsValue.or (member args "cities") (JStr "London,Paris")) eqn:Hs;
        try (destruct (generateTravelWeatherAdvicePrompt_not_text env args w Hargs)
               as [e ->]; [intros s0; rewrite Hs; discriminate | discriminate]).
      pose proof (generateTravelWeatherAdvicePrompt_eq env args _ _ s w
                    (get_present args "cities" Hargs)
                    (get_present args "travel_date" Hargs) Hs) as Hgen.
      assert (Hs' : JsValue.or (member (JsValue.or args (JObj [])) "cities")
                               (JStr "London,Paris") = JStr s)
        by (now rewrite Hmember).
      pose proof (compiled_travel_eq env _ s w Hp' Hs') as Hcmp.
      cbv zeta in Hgen, Hcmp. rewrite Hgen, Hcmp, Hmember. simpl.
      destruct (Promise_all (fetchedEach _ _ _)) as [results|] eqn:Hok; [|discriminate].
      rewrite (compiled_fetchedEach_success env _ _ results Hok).
      destruct (JsValue.toString _); [|discriminate].
      intros H Hres. injection H as <-. simpl in Hres. injection Hres as <-. reflexivity. }
    destruct (JsValue.is_string _ "weather-comparison").
    { pose proof (generateWeatherComparisonPrompt_eq env args w Hargs) as Hgen.
      pose proof (compiled_comparison_eq env _ w Hp') as Hcmp.
      assert (Hc1 : comparisonCity1 (JsValue.or args (JObj [])) = comparisonCity1 args)
        by (unfold comparisonCity1; now rewrite Hmember).
      assert (Hc2 : comparisonCity2 (JsValue.or args (JObj [])) = comparisonCity2 args)
        by (unfold comparisonCity2; now rewrite Hmember).
      cbv zeta in Hgen, Hcmp. rewrite Hgen, Hcmp, Hc1, Hc2.
      destruct (Promise_all2 (fetched _ _ _ _) _) as [both|] eqn:Hok; [|discriminate].
      destruct (Promise_all2_fulfilled _ _ _ Hok) as [H1 H2].
      rewrite (compiled_fetch_success env _ _ _ _ H1),
              (compiled_fetch_success env _ _ _ _ H2).
      cbn [Promise_all2 fst snd].
      destruct (JsValue.toString (comparisonCity1 args)); [|discriminate].
      destruct (JsValue.toString (comparisonCity2 args)); [|discriminate].
      intros H Hres. injection H as <-. simpl in Hres. injection Hres as <-. reflexivity. }
    simpl. intros H Hres. injection H as <-. discriminate Hres.
  - destruct (generators_need_arguments env args w Hargs)
      as [[e1 H1] [[e2 H2] [e3 H3]]].
    rewrite H1, H2, H3.
    destruct (JsValue.is_string _ "weather-report"); [discriminate|].
    destruct (JsValue.is_string _ "travel-weather-advice"); [discriminate|].
    destruct (JsValue.is_string _ "weather-comparison"); [discriminate|].
    simpl. intros H Hres. injection H as <-. discriminate Hres.
Qed.

Lemma compiled_prompts_follow_router_witness :
  let req := request 7 "prompts/get"
               (named "travel-weather-advice" (JObj [("cities", JStr "Rome, Oslo")])) in
  exists answer result,
    fst (handleRequest servedEnv req []) = Fulfilled answer
    /\ MCPResponse.result answer = Some result
    /\ McpStdioCompiled.getPromptHandler servedEnv req []
       = (Fulfilled result, snd (handleRequest servedEnv req [])).
Proof.
  intros req. eexists. eexists. split; [reflexivity|]. split; [reflexivity|].
  eapply (compiled_prompts_follow_router servedEnv req []); reflexivity.
Defined.

(** ** The endpoint and the catalogs *)

(** X19. The HTTP endpoint adds nothing to the router and takes nothing
    away: its promise settles exactly as the router's does, so a rejection
    of the router is a rejection of the endpoint, and the fetches are the
    same. *)
Theorem handleMCPRequest_is_handleRequest env req w :
  handleMCPRequest env req w = handleRequest env req w.
Proof.
  unfold handleMCPRequest. run.
  destruct (handleRequest env req w) as [[answer|e] w']; reflexivity.
Qed.


(** X21. The stdio tool handler and its compiled form give the same
    outcome on get-weather whenever the city and the units they pass to
    their weather clients can be printed. *)
Theorem stdio_handlers_agree env req w args cityText unitsText :
  JsValue.get (MCPRequest.params req) "name" = Return (JStr "get-weather") ->
  JsValue.get (MCPRequest.params req) "arguments" = Return args ->
  present args = true ->
  JsValue.toString (member args "city") = Return cityText ->
  JsValue.toString (JsValue.or (member args "units") (JStr "metric")) = Return unitsText ->
  McpStdioCompiled.callToolHandler env req w = WeatherMCPServer.callToolHandler env req w.
Proof.
  intros Hname Hargs Hp Hcity Hunits.
  pose proof (get_returns_present _ _ _ Hname) as Hparams.
  unfold McpStdioCompiled.callToolHandler, WeatherMCPServer.callToolHandler. run.
  rewrite (destructurable_present _ _ _ Hparams), Hname, Hargs. simpl.
  rewrite !(get_present _ _ Hp).
  rewrite getWeatherByCity_eq, compiled_getWeatherByCity_eq by apply or_defined.
  pose proof (clients_agree env (Datatypes.length w) _ _ _ _ Hcity Hunits) as Hsame.
  unfold same_outcome in Hsame.
  destruct (fetched env _ _ _), (McpStdioCompiled.fetched env _ _ _);
    try contradiction; simpl; now rewrite Hsame.
Qed.

Lemma stdio_handlers_agree_witness :
  let args := JObj [("city", JStr "Atlantis"); ("units", JStr "imperial")] in
  let req := request 1 "tools/call" (named "get-weather" args) in
  McpStdioCompiled.callToolHandler liveEnv req []
  = WeatherMCPServer.callToolHandler liveEnv req [].
Proof.
  intros args req.
  apply (stdio_handlers_agree liveEnv req [] args "Atlantis" "imperial"); reflexivity.
Defined.

(** X22. Where the two weather clients part: units that cannot be printed
    (an object with a [toString] member of its own).  The HTTP server's
    client fails on its log line with the conversion error; the compiled
    client, which has no log line, goes on and on the mock path delivers
    a record with the imperial figures and those units. *)
Theorem unprintable_units_part_the_clients env k s units e :
  apiKey env = "demo-key" ->
  JsString.trim s <> EmptyString ->
  JsValue.toString units = Throw e ->
  fetched env k (JStr s) units = Rejected e
  /\ exists weather,
      McpStdioCompiled.fetched env k (JStr s) units = Fulfilled weather
      /\ WeatherTypes.country weather = "XX"
      /\ WeatherTypes.temperature weather = JsNumber.of_Z 72
      /\ WeatherTypes.feelsLike weather = JsNumber.of_Z 75
      /\ WeatherTypes.windSpeed weather = mkNumber 116 1
      /\ WeatherTypes.units weather = units.
Proof.
  intros Hkey Hname Hunits.
  assert (Hother : JsValue.is_string units "metric" = false)
    by (destruct units; try reflexivity; simpl in Hunits; discriminate Hunits).
  split.
  - unfold fetched, getWeatherByCity_body. run. simpl. now rewrite Hunits.
  - unfold McpStdioCompiled.fetched, McpStdioCompiled.getWeatherByCity_body. run.
    change (McpStdioCompiled.apiKey env) with (apiKey env).
    rewrite (cityIsMissing_named s Hname), Hkey. simpl. rewrite Hother.
    eexists. split; [reflexivity|]. repeat split.
Qed.

Lemma unprintable_units_part_the_clients_witness :
  fetched demoEnv 0 (JStr "Oslo") (JObj [("toString", JNull)])
  = Rejected (TypeError "Cannot convert object to primitive value")
  /\ exists weather,
      McpStdioCompiled.fetched demoEnv 0 (JStr "Oslo") (JObj [("toString", JNull)])
      = Fulfilled weather
      /\ WeatherTypes.country weather = "XX"
      /\ WeatherTypes.temperature weather = JsNumber.of_Z 72
      /\ WeatherTypes.feelsLike weather = JsNumber.of_Z 75
      /\ WeatherTypes.windSpeed weather = mkNumber 116 1
      /\ WeatherTypes.units weather = JObj [("toString", JNull)].
Proof.
  apply (unprintable_units_part_the_clients demoEnv 0 "Oslo" (JObj [("toString", JNull)]));
    [reflexivity | discriminate | reflexivity].
Defined.

(** X23. [initialize], [tools/list] and [prompts/list] are answered under
    the id of the request with a result that depends on the method alone:
    not on the params (so [initialize] negotiates no protocol version), not
    on the configuration, not on earlier requests; and they start no
    fetch. *)
Theorem static_methods env req w :
  In (MCPRequest.method req) ["initialize"; "tools/list"; "prompts/list"] ->
  exists result,
    handleRequest env req w = (Fulfilled (success (MCPRequest.id req) result), w)
    /\ forall env' jsonrpc' id' params' w',
        handleRequest env' (MCPRequest.mk jsonrpc' id' (MCPRequest.method req) params') w'
        = (Fulfilled (success id' result), w').
Proof.
  intros [H|[H|[H|[]]]]; unfold handleRequest; run; rewrite <- H; simpl;
    eexists; split; reflexivity.
Qed.

Lemma static_methods_witness :
  exists result,
    handleRequest demoEnv
      (request 1 "initialize" (JObj [("protocolVersion", JStr "2025-03-26")])) []
    = (Fulfilled (success (JNum (JsNumber.of_Z 1)) result), [])
    /\ forall env' jsonrpc' id' params' w',
        handleRequest env' (MCPRequest.mk jsonrpc' id' "initialize" params') w'
        = (Fulfilled (success id' result), w').
Proof.
  apply (static_methods demoEnv
           (request 1 "initialize" (JObj [("protocolVersion", JStr "2025-03-26")])) []).
  simpl. auto.
Defined.

(** ** White space beyond ASCII *)

Example trim_no_break_space :
  JsString.trim (nbsp ++ " Oslo" ++ ideographic_space ++ byte_order_mark ++ LF) = "Oslo".
Proof. reflexivity. Qed.

Example trim_keeps_inner_space :
  JsString.trim (" New" ++ nbsp ++ "York ") = "New" ++ nbsp ++ "York".
Proof. reflexivity. Qed.

Example trim_keeps_zero_width_space :
  JsString.trim (zero_width_space ++ " ") = zero_width_space.
Proof. reflexivity. Qed.

(** A city of no-break spaces only is refused like an empty one. *)
Example no_break_space_city_refused :
  handleRequest demoEnv
    (request 1 "tools/call" (named "get-weather" (JObj [("city", JStr (nbsp ++ nbsp))]))) []
  = (Fulfilled (createErrorResponse (JNum (JsNumber.of_Z 1)) (-32603)
                  "Weather service error: City name is required"),
     [FetchWeather (JStr (nbsp ++ nbsp)) (JStr "metric")]).
Proof. reflexivity. Qed.

(** The entries of the travel advice are trimmed of it too. *)
Example travel_advice_trims_no_break_space :
  snd (handleRequest demoEnv
         (request 3 "prompts/get"
            (named "travel-weather-advice" (JObj [("cities", JStr ("A" ++ nbsp ++ ",B"))])))
         [])
  = fetchEvents ["A"; "B"].
Proof. reflexivity. Qed.

(** A number too small for a double counts as zero: the default applies. *)
Example underflow_is_falsy :
  JsValue.or (JNum (mkNumber 1 400)) (JStr "London") = JStr "London"
  /\ JsValue.or (JNum (mkNumber 1 300)) (JStr "London") = JNum (mkNumber 1 300).
Proof. split; reflexivity. Qed.

(** A provider answer without [main] is a failed fetch. *)
Example answer_without_main :
  fetched {| OPENWEATHER_API_KEY := Some "secret";
             axios_get := fun _ _ _ _ =>
               Fulfilled {| WeatherTypes.name := "Paris";
                            WeatherTypes.sys := Some {| WeatherTypes.sys_country := "FR" |};
                            WeatherTypes.main := None;
                            WeatherTypes.weather :=
                              [ {| WeatherTypes.condition_description := "light rain" |} ];
                            WeatherTypes.wind := None;
                            WeatherTypes.data_visibility := JsNumber.of_Z 9000 |};
             new_Date := fun _ => "2025-01-01T00:00:00.000Z" |}
          0 (JStr "Paris") (JStr "metric")
  = Rejected (BadRequestException "Failed to fetch weather data").
Proof. reflexivity. Qed.
